(** * Scrapy downloader core: TLS verification policy and file handler

  A shallow embedding of

  - [scrapy/core/downloader/tls.py]: [ScrapyClientTLSOptions] and its
    handshake-progress callback [_identityVerifyingInfoCallback];
  - [scrapy/core/downloader/handlers/file.py]: [FileDownloadHandler] and
    its [download_request].

  Python code runs in a monad [Py W] that threads a world [W] (the
  objects the code can reach) and can raise: effects performed before
  an exception is raised are kept, as in Python.  The collaborators
  whose code lives outside these two files (pyOpenSSL, Twisted,
  service_identity, w3lib, the file system, [scrapy.responsetypes],
  [scrapy.utils.ssl]) are interfaces: every result below holds for
  all of their implementations. *)

From Stdlib Require Import ZArith String List Bool Ascii Lia.
From Stdlib.Strings Require Import Byte.
From ExtLib Require Import Structures.Monad.
Import ListNotations.
Import MonadNotation.

Local Open Scope string_scope.
Local Open Scope list_scope.
Local Open Scope monad_scope.

(* ===================================================================== *)
(** * Python: exceptions, truthiness, the [Py] monad                      *)
(* ===================================================================== *)

Module Python.

Definition bytes := list byte.

(** Exception classes named by the two source files, the builtin ones
    their collaborators raise, and any other class by name. *)
Inductive ExcClass : Type :=
| BaseException
| Exception
| ValueError
| TypeError
| OSError
| FileNotFoundError
| CertificateError
| VerificationError
| OtherClass (name : string).

Definition ExcClass_eqb (c d : ExcClass) : bool :=
  match c, d with
  | BaseException, BaseException => true
  | Exception, Exception => true
  | ValueError, ValueError => true
  | TypeError, TypeError => true
  | OSError, OSError => true
  | FileNotFoundError, FileNotFoundError => true
  | CertificateError, CertificateError => true
  | VerificationError, VerificationError => true
  | OtherClass n, OtherClass m => String.eqb n m
  | _, _ => false
  end.

(** An exception instance: the classes it is an instance of (its own
    class first, then its bases, as in [type(e).__mro__]), and what
    [str(e)] and [repr(e)] give. *)
Record PyException : Type := {
  exc_mro : list ExcClass;
  exc_str : string;
  exc_repr : string
}.

(** [isinstance(e, cls)] *)
Definition isinstance (e : PyException) (cls : ExcClass) : bool :=
  existsb (ExcClass_eqb cls) (exc_mro e).

(** [isinstance(e, (cls1, cls2, ...))] *)
Definition isinstance_any (e : PyException) (classes : list ExcClass) : bool :=
  existsb (isinstance e) classes.

(** A Python call either returns a value or raises. *)
Inductive result (A : Type) : Type :=
| Return (a : A)
| Raise (e : PyException).
Arguments Return {A} a.
Arguments Raise {A} e.

(** Truthiness, as [if x:] tests it. *)
Definition truthy_int (n : Z) : bool := negb (Z.eqb n 0).

Definition truthy_opt_str (s : option string) : bool :=
  match s with
  | Some s => negb (String.eqb s "")
  | None => false
  end.

(** ** The monad *)

Definition Py (W A : Type) : Type := W -> result A * W.

Definition py_ret {W A} (a : A) : Py W A := fun w => (Return a, w).

Definition py_bind {W A B} (m : Py W A) (k : A -> Py W B) : Py W B :=
  fun w =>
    match m w with
    | (Return a, w') => k a w'
    | (Raise e, w') => (Raise e, w')
    end.

#[export] Instance Monad_Py {W} : Monad (Py W) :=
  {| ret := @py_ret W; bind := @py_bind W |}.

Definition py_raise {W A} (e : PyException) : Py W A := fun w => (Raise e, w).

Definition gets {W A} (f : W -> A) : Py W A := fun w => (Return (f w), w).

Definition modify {W} (f : W -> W) : Py W unit := fun w => (Return tt, f w).

(** Lift a world-independent call that may raise. *)
Definition call {W A} (r : W -> result A) : Py W A := fun w => (r w, w).

(** One [except (cls1, cls2, ...) as e: handler] clause. *)
Definition ExceptClause (W A : Type) : Type :=
  (list ExcClass * (PyException -> Py W A))%type.

(** The first clause that matches the exception, if any. *)
Fixpoint find_clause {W A} (clauses : list (ExceptClause W A)) (e : PyException)
  : option (PyException -> Py W A) :=
  match clauses with
  | [] => None
  | (classes, handler) :: rest =>
      if isinstance_any e classes then Some handler
      else find_clause rest e
  end.

(** [try: body  except ...: ...]; an exception no clause matches
    propagates, and so does one raised by a handler. *)
Definition try_except {W A} (body : Py W A) (clauses : list (ExceptClause W A))
  : Py W A :=
  fun w =>
    match body w with
    | (Return a, w') => (Return a, w')
    | (Raise e, w') =>
        match find_clause clauses e with
        | Some handler => handler e w'
        | None => (Raise e, w')
        end
    end.

End Python.
Import Python.

(* ===================================================================== *)
(** * [logging]                                                           *)
(* ===================================================================== *)

Module Logging.

Inductive Level : Type := DEBUG | INFO | WARNING | ERROR | CRITICAL.

Definition Level_eqb (a b : Level) : bool :=
  match a, b with
  | DEBUG, DEBUG | INFO, INFO | WARNING, WARNING
  | ERROR, ERROR | CRITICAL, CRITICAL => true
  | _, _ => false
  end.

(** The objects this code passes as log arguments. *)
Inductive PyVal : Type :=
| PyStr (s : string)
| PyNone
| PyExc (e : PyException).

Definition of_optional_str (s : option string) : PyVal :=
  match s with
  | Some s => PyStr s
  | None => PyNone
  end.

(** A [LogRecord]: level, the format string [msg] and its [args]. *)
Record LogRecord : Type := {
  levelname : Level;
  msg : string;
  args : list PyVal
}.

(** [str(x)] *)
Definition py_str (x : PyVal) : string :=
  match x with
  | PyStr s => s
  | PyNone => "None"
  | PyExc e => exc_str e
  end.

(** [repr(x)], for the objects this code formats with [%r]: exceptions
    and [None]. *)
Definition py_repr (x : PyVal) : option string :=
  match x with
  | PyStr _ => None
  | PyNone => Some "None"
  | PyExc e => Some (exc_repr e)
  end.

(** [fmt % args] for the conversions [%s], [%r] and [%%]; [None] where
    Python raises (too few or too many arguments) or where the
    conversion is not one of these. *)
Fixpoint percent_format (fmt : string) (args : list PyVal) : option string :=
  match fmt with
  | EmptyString =>
      match args with
      | [] => Some EmptyString
      | _ :: _ => None
      end
  | String "%" (String c rest) =>
      match c, args with
      | "s"%char, a :: args' =>
          option_map (append (py_str a)) (percent_format rest args')
      | "r"%char, a :: args' =>
          match py_repr a with
          | Some text => option_map (append text) (percent_format rest args')
          | None => None
          end
      | "%"%char, _ => option_map (String "%") (percent_format rest args)
      | _, _ => None
      end
  | String c rest => option_map (String c) (percent_format rest args)
  end.

(** [LogRecord.getMessage()] *)
Definition getMessage (r : LogRecord) : option string :=
  percent_format (msg r) (args r).

End Logging.
Import Logging.

(* ===================================================================== *)
(** * [scrapy/core/downloader/tls.py]                                     *)
(* ===================================================================== *)

Module Tls.

(** The double quote character, for the format strings that contain it. *)
Definition dq : string := String "034"%char EmptyString.

(** ** The TLS method names and [openssl_methods] *)

Definition METHOD_TLS : string := "TLS".
Definition METHOD_TLSv10 : string := "TLSv1.0".
Definition METHOD_TLSv11 : string := "TLSv1.1".
Definition METHOD_TLSv12 : string := "TLSv1.2".

(** The four method constants of [OpenSSL.SSL] the table names. *)
Class SSL_methods : Type := {
  SSLv23_METHOD : Z;
  TLSv1_METHOD : Z;
  TLSv1_1_METHOD : Z;
  TLSv1_2_METHOD : Z
}.

(** A [dict[str, int]], its items in insertion order. *)
Definition PyDict : Type := list (string * Z).

(** [d[key] = value]: the value of an existing key is replaced, a new
    key goes last. *)
Fixpoint dict_setitem (key : string) (value : Z) (d : PyDict) : PyDict :=
  match d with
  | [] => [(key, value)]
  | (k, v) :: rest =>
      if String.eqb key k then (key, value) :: rest
      else (k, v) :: dict_setitem key value rest
  end.

(** A dict display [{k1: v1, k2: v2, ...}]: the items are set from
    left to right. *)
Definition dict_display (items : list (string * Z)) : PyDict :=
  fold_left (fun d item => dict_setitem (fst item) (snd item) d) items [].

(** [d.get(key)]: [None] where [d[key]] raises [KeyError]. *)
Fixpoint dict_get (key : string) (d : PyDict) : option Z :=
  match d with
  | [] => None
  | (k, v) :: rest => if String.eqb key k then Some v else dict_get key rest
  end.

Definition openssl_methods `{SSL_methods} : PyDict :=
  dict_display
    [ (METHOD_TLS, SSLv23_METHOD);
      (METHOD_TLSv10, TLSv1_METHOD);
      (METHOD_TLSv11, TLSv1_1_METHOD);
      (METHOD_TLSv12, TLSv1_2_METHOD) ].

(** What the module takes from pyOpenSSL ([OpenSSL.SSL]): the two
    handshake bits of the info callback's [where] mask, and the opaque
    types behind [connection._ssl] and a certificate's names. *)
Class OpenSSL : Type := {
  SSL_CB_HANDSHAKE_START : Z;
  SSL_CB_HANDSHAKE_DONE : Z;
  SSL_handle : Type;
  SSL_Context : Type;
  X509Name : Type
}.

Section Objects.
Context `{OpenSSL}.

(** [OpenSSL.crypto.X509], as far as the callback looks into it: what
    [get_issuer()] and [get_subject()] give, a name or an exception. *)
Record X509 : Type := {
  get_issuer : result X509Name;
  get_subject : result X509Name
}.

(** [OpenSSL.SSL.Connection]: the server name set so far, and what a
    call of each accessor gives, a value ([str], [str | None],
    [X509 | None]) or an exception.  [tlsext_host_name_error name] is
    the exception [set_tlsext_host_name(name)] raises when the engine
    does not accept [name]. *)
Record Connection : Type := {
  servername : option bytes;
  tlsext_host_name_error : bytes -> option PyException;
  get_protocol_version_name : result string;
  get_cipher_name : result (option string);
  get_peer_certificate : result (option X509);
  _ssl : SSL_handle
}.

Definition with_servername (c : Connection) (name : bytes) : Connection :=
  {| servername := Some name;
     tlsext_host_name_error := tlsext_host_name_error c;
     get_protocol_version_name := get_protocol_version_name c;
     get_cipher_name := get_cipher_name c;
     get_peer_certificate := get_peer_certificate c;
     _ssl := _ssl c |}.

(** Twisted's [ClientTLSOptions]: the attributes its constructor sets. *)
Record ClientTLSOptions : Type := {
  _ctx : SSL_Context;
  _hostname : string;
  _hostnameBytes : bytes;
  _hostnameASCII : string
}.

(** [class ScrapyClientTLSOptions(ClientTLSOptions)]: the inherited
    attributes and [verbose_logging]. *)
Record ScrapyClientTLSOptions : Type := {
  super : ClientTLSOptions;
  verbose_logging : bool
}.

(** The functions the module imports: [verifyHostname] and the
    constructor of [ClientTLSOptions] from [twisted.internet._sslverify],
    [get_temp_key_info] and [x509name_to_string] from [scrapy.utils.ssl]. *)
Class Imports : Type := {
  ClientTLSOptions__init__ : string -> SSL_Context -> ClientTLSOptions;
  verifyHostname : Connection -> string -> result unit;
  get_temp_key_info : SSL_handle -> result (option string);
  x509name_to_string : X509Name -> result string
}.

(** What a run does that can be seen from outside, in order. *)
Inductive Event : Type :=
| Logged (record : LogRecord)
| Called_set_tlsext_host_name (name : bytes)
| Called_verifyHostname (hostname : string).

(** The objects the callback reaches: its [self], the connection the
    engine passes, and the journal of what has happened so far (oldest
    first). *)
Record World : Type := {
  self : ScrapyClientTLSOptions;
  connection : Connection;
  journal : list Event
}.

Definition record_event (ev : Event) (w : World) : World :=
  {| self := self w; connection := connection w; journal := journal w ++ [ev] |}.

Definition set_connection (c : Connection) (w : World) : World :=
  {| self := self w; connection := c; journal := journal w |}.

(** [logger.debug(msg, *args)] and [logger.warning(msg, *args)] *)
Definition logger_debug (msg : string) (args : list PyVal) : Py World unit :=
  modify (record_event (Logged {| levelname := DEBUG; msg := msg; args := args |})).

Definition logger_warning (msg : string) (args : list PyVal) : Py World unit :=
  modify (record_event (Logged {| levelname := WARNING; msg := msg; args := args |})).

(** [connection.set_tlsext_host_name(name)] *)
Definition set_tlsext_host_name (name : bytes) : Py World unit :=
  modify (record_event (Called_set_tlsext_host_name name)) ;;
  c <- gets connection ;;
  match tlsext_host_name_error c name with
  | Some e => py_raise e
  | None => modify (set_connection (with_servername c name))
  end.

Context `{Imports}.

(** [verifyHostname(connection, hostname)] *)
Definition call_verifyHostname (hostname : string) : Py World unit :=
  modify (record_event (Called_verifyHostname hostname)) ;;
  call (fun w => verifyHostname (connection w) hostname).

(** ** The format strings of the four log calls *)

Definition msg_connection : string :=
  "SSL connection to %s using protocol %s, cipher %s".

Definition msg_certificate : string :=
  "SSL connection certificate: issuer " ++ dq ++ "%s" ++ dq
  ++ ", subject " ++ dq ++ "%s" ++ dq.

Definition msg_temp_key : string := "SSL temp key: %s".

Definition msg_not_valid : string :=
  "Remote certificate is not valid for hostname " ++ dq ++ "%s" ++ dq ++ "; %s".

Definition msg_ignoring : string :=
  "Ignoring error while verifying certificate "
  ++ "from host " ++ dq ++ "%s" ++ dq ++ " (exception: %r)".

(** ** [ScrapyClientTLSOptions.__init__] *)
Definition __init__ (hostname : string) (ctx : SSL_Context)
    (verbose_logging : bool) : ScrapyClientTLSOptions :=
  {| super := ClientTLSOptions__init__ hostname ctx;
     verbose_logging := verbose_logging |}.

(** The [if self.verbose_logging:] block of the handshake-done branch.
    Its calls run in the order Python evaluates them, outside any
    [try]: one that raises ends the block, and the callback, there. *)
Definition log_connection_parameters : Py World unit :=
  this <- gets self ;;
  c <- gets connection ;;
  protocol <- call (fun _ => get_protocol_version_name c) ;;
  cipher <- call (fun _ => get_cipher_name c) ;;
  logger_debug msg_connection
    [PyStr (_hostnameASCII (super this));
     PyStr protocol;
     of_optional_str cipher] ;;
  server_cert <- call (fun _ => get_peer_certificate c) ;;
  match server_cert with
  | Some cert =>
      issuer <- call (fun _ => get_issuer cert) ;;
      issuer_text <- call (fun _ => x509name_to_string issuer) ;;
      subject <- call (fun _ => get_subject cert) ;;
      subject_text <- call (fun _ => x509name_to_string subject) ;;
      logger_debug msg_certificate [PyStr issuer_text; PyStr subject_text]
  | None => ret tt
  end ;;
  key_info <- call (fun _ => get_temp_key_info (_ssl c)) ;;
  if truthy_opt_str key_info
  then logger_debug msg_temp_key [of_optional_str key_info]
  else ret tt.

(** The [try: verifyHostname(...) except ...] statement. *)
Definition verify_tolerating_errors : Py World unit :=
  this <- gets self ;;
  try_except
    (call_verifyHostname (_hostnameASCII (super this)))
    [ ([CertificateError; VerificationError],
       fun e =>
         this <- gets self ;;
         logger_warning msg_not_valid
           [PyStr (_hostnameASCII (super this)); PyExc e]);
      ([ValueError],
       fun e =>
         this <- gets self ;;
         logger_warning msg_ignoring
           [PyStr (_hostnameASCII (super this)); PyExc e]) ].

(** ** [ScrapyClientTLSOptions._identityVerifyingInfoCallback]

    [self] and [connection] are the objects of the world; [where_] and
    [ret_] are the other two arguments the engine passes. *)
Definition _identityVerifyingInfoCallback (where_ : Z) (ret_ : PyVal)
  : Py World unit :=
  this <- gets self ;;
  if truthy_int (Z.land where_ SSL_CB_HANDSHAKE_START) then
    set_tlsext_host_name (_hostnameBytes (super this))
  else if truthy_int (Z.land where_ SSL_CB_HANDSHAKE_DONE) then
    (if verbose_logging this then log_connection_parameters else ret tt) ;;
    verify_tolerating_errors
  else
    ret tt.

(** ** Observing a run *)

(** The two events of a handshake, as the [if]/[elif] reads the mask:
    the start bit is tested first, the done bit only when the start bit
    is clear. *)
Definition handshake_start (where_ : Z) : Prop :=
  Z.land where_ SSL_CB_HANDSHAKE_START <> 0%Z.

Definition handshake_done (where_ : Z) : Prop :=
  Z.land where_ SSL_CB_HANDSHAKE_START = 0%Z /\
  Z.land where_ SSL_CB_HANDSHAKE_DONE <> 0%Z.

(** The log records of a given level among some events, in order. *)
Fixpoint records_at (level : Level) (events : list Event) : list LogRecord :=
  match events with
  | [] => []
  | Logged r :: rest =>
      if Level_eqb (levelname r) level
      then r :: records_at level rest
      else records_at level rest
  | _ :: rest => records_at level rest
  end.

(** Everything but the debug-level records: the calls made and the
    records of the other levels. *)
Fixpoint without_debug (events : list Event) : list Event :=
  match events with
  | [] => []
  | Logged r :: rest =>
      if Level_eqb (levelname r) DEBUG
      then without_debug rest
      else Logged r :: without_debug rest
  | ev :: rest => ev :: without_debug rest
  end.

(** The same world with another value of the [verbose_logging] flag. *)
Definition with_verbose_logging (flag : bool) (w : World) : World :=
  {| self := {| super := super (self w); verbose_logging := flag |};
     connection := connection w;
     journal := journal w |}.

(** The records the four log calls build. *)
Definition connection_record (hostname protocol : string) (cipher : option string)
  : LogRecord :=
  {| levelname := DEBUG;
     msg := msg_connection;
     args := [PyStr hostname; PyStr protocol; of_optional_str cipher] |}.

Definition certificate_record (issuer subject : string) : LogRecord :=
  {| levelname := DEBUG;
     msg := msg_certificate;
     args := [PyStr issuer; PyStr subject] |}.

Definition temp_key_record (key_info : option string) : LogRecord :=
  {| levelname := DEBUG;
     msg := msg_temp_key;
     args := [of_optional_str key_info] |}.

(** The verbose block as a function of the hostname and the
    connection: the records it logs, in order, and whether it then
    returns or raises.  First the part about the certificate, then the
    whole block. *)
Definition certificate_part (c : Connection) : list LogRecord * result unit :=
  match get_peer_certificate c with
  | Raise e => ([], Raise e)
  | Return None => ([], Return tt)
  | Return (Some cert) =>
      match get_issuer cert with
      | Raise e => ([], Raise e)
      | Return issuer =>
          match x509name_to_string issuer with
          | Raise e => ([], Raise e)
          | Return issuer_text =>
              match get_subject cert with
              | Raise e => ([], Raise e)
              | Return subject =>
                  match x509name_to_string subject with
                  | Raise e => ([], Raise e)
                  | Return subject_text =>
                      ([certificate_record issuer_text subject_text], Return tt)
                  end
              end
          end
      end
  end.

Definition verbose_block (hostname : string) (c : Connection)
  : list LogRecord * result unit :=
  match get_protocol_version_name c with
  | Raise e => ([], Raise e)
  | Return protocol =>
      match get_cipher_name c with
      | Raise e => ([], Raise e)
      | Return cipher =>
          let first := connection_record hostname protocol cipher in
          match certificate_part c with
          | (records, Raise e) => (first :: records, Raise e)
          | (records, Return _) =>
              match get_temp_key_info (_ssl c) with
              | Raise e => (first :: records, Raise e)
              | Return key_info =>
                  (first :: records
                   ++ (if truthy_opt_str key_info
                       then [temp_key_record key_info] else []),
                   Return tt)
              end
          end
      end
  end.

(** The verification is reached: the verbose block, when the flag has
    it run, returns. *)
Definition verification_is_reached (w : World) : Prop :=
  verbose_logging (self w) = true ->
  fst (log_connection_parameters w) = Return tt.

Definition not_valid_record (hostname : string) (e : PyException) : LogRecord :=
  {| levelname := WARNING;
     msg := msg_not_valid;
     args := [PyStr hostname; PyExc e] |}.

Definition ignoring_record (hostname : string) (e : PyException) : LogRecord :=
  {| levelname := WARNING;
     msg := msg_ignoring;
     args := [PyStr hostname; PyExc e] |}.

(** The world after some more events, the objects as they were. *)
Definition after_events (events : list Event) (w : World) : World :=
  {| self := self w; connection := connection w; journal := journal w ++ events |}.

(** The engine invoking the callback again and again on one context,
    each time with the connection in the state it has reached and with
    an event; whatever an invocation returns or raises, the next one
    finds the world the previous one left. *)
Fixpoint run_callbacks (calls : list (Connection * Z * PyVal)) (w : World) : World :=
  match calls with
  | [] => w
  | (c, where_, ret_) :: rest =>
      run_callbacks rest
        (snd (_identityVerifyingInfoCallback where_ ret_ (set_connection c w)))
  end.

(** ** Counting over a sequence of calls *)

(** The branch an event value takes, as booleans. *)
Definition is_start_event (where_ : Z) : bool :=
  truthy_int (Z.land where_ SSL_CB_HANDSHAKE_START).

Definition is_done_event (where_ : Z) : bool :=
  negb (is_start_event where_)
  && truthy_int (Z.land where_ SSL_CB_HANDSHAKE_DONE).

Definition is_verify_call (ev : Event) : bool :=
  match ev with
  | Called_verifyHostname _ => true
  | _ => false
  end.

Definition is_server_name_call (ev : Event) : bool :=
  match ev with
  | Called_set_tlsext_host_name _ => true
  | _ => false
  end.

(** How many of the calls carry a start event, a done event. *)
Definition start_events (calls : list (Connection * Z * PyVal)) : nat :=
  List.length (filter (fun call => is_start_event (snd (fst call))) calls).

Definition done_events (calls : list (Connection * Z * PyVal)) : nat :=
  List.length (filter (fun call => is_done_event (snd (fst call))) calls).

(** A log record whose level is [level]. *)
Definition logged_at (level : Level) (ev : Event) : Prop :=
  exists r, ev = Logged r /\ levelname r = level.

End Objects.

End Tls.

(* ===================================================================== *)
(** * [scrapy/core/downloader/handlers/file.py]                           *)
(* ===================================================================== *)

Module FileHandler.

(** [scrapy.Request] and [scrapy.Spider], as far as the handler reads
    them. *)
Record Request : Type := { url : string }.

Record Spider : Type := { name : string }.

(** What the module imports: [file_uri_to_path] from [w3lib.url], which
    may raise, and [responsetypes.from_args], which picks a response
    class from a file name and a body. *)
Class Imports : Type := {
  ResponseClass : Type;
  file_uri_to_path : string -> result string;
  responsetypes_from_args : string -> bytes -> ResponseClass
}.

(** The file system: for every path, what [Path(path).read_bytes()]
    gives in its current state, the content of a readable file or the
    exception the read raises. *)
Definition FileSystem : Type := string -> result bytes.

Section Handler.
Context `{Imports}.

(** A response object [respcls(url=..., body=...)]: its class and the
    two attributes the handler sets. *)
Record Response : Type := {
  response_class : ResponseClass;
  response_url : string;
  response_body : bytes
}.

(** [Path(filepath).read_bytes()] *)
Definition read_bytes (filepath : string) : Py FileSystem bytes :=
  call (fun fs => fs filepath).

(** Twisted's [Deferred], already fired: with a result or with the
    failure that wraps an exception. *)
Inductive Deferred (A : Type) : Type :=
| succeed (value : A)
| fail (failure : PyException).

(** Modelled from the spec: the decorator [defers] of
    [scrapy.utils.decorators], "wrapped in a deferred-style completion":
    the call completes or fails, and either way the caller gets a
    deferred. *)
Definition defers {W A} (f : Py W A) : W -> Deferred A * W :=
  fun w =>
    match f w with
    | (Return a, w') => (succeed A a, w')
    | (Raise e, w') => (fail A e, w')
    end.

Definition lazy : bool := false.

(** The body of [FileDownloadHandler.download_request]. *)
Definition download_request_body (request : Request) (spider : Spider)
  : Py FileSystem Response :=
  filepath <- call (fun _ => file_uri_to_path (url request)) ;;
  body <- read_bytes filepath ;;
  let respcls := responsetypes_from_args filepath body in
  ret {| response_class := respcls;
         response_url := url request;
         response_body := body |}.

(** [FileDownloadHandler.download_request], under [@defers]. *)
Definition download_request (request : Request) (spider : Spider)
  : FileSystem -> Deferred Response * FileSystem :=
  defers (download_request_body request spider).

End Handler.

Arguments succeed {A} value.
Arguments fail {A} failure.

End FileHandler.

(* ===================================================================== *)
(** * A small instance of the interfaces                                  *)
(* ===================================================================== *)

(** One concrete engine, verifier, URL converter and file system, to run
    the two handlers on. *)
Module Sample.

Import Tls.

(** The values [SSL_CB_HANDSHAKE_START] and [SSL_CB_HANDSHAKE_DONE] have
    in OpenSSL ([0x10] and [0x20]); handles are numbers, names are
    strings. *)
Definition openssl : OpenSSL :=
  {| SSL_CB_HANDSHAKE_START := 16;
     SSL_CB_HANDSHAKE_DONE := 32;
     SSL_handle := nat;
     SSL_Context := unit;
     X509Name := string |}.

#[local] Existing Instance openssl.

Definition ascii_bytes (s : string) : bytes :=
  map byte_of_ascii (list_ascii_of_string s).

Definition certificate_error : PyException :=
  {| exc_mro := [CertificateError; Exception; BaseException];
     exc_str := "no name matches";
     exc_repr := "CertificateError('no name matches')" |}.

Definition value_error : PyException :=
  {| exc_mro := [ValueError; Exception; BaseException];
     exc_str := "empty subject";
     exc_repr := "ValueError('empty subject')" |}.

Definition attribute_error : PyException :=
  {| exc_mro := [OtherClass "AttributeError"; Exception; BaseException];
     exc_str := "no certificate";
     exc_repr := "AttributeError('no certificate')" |}.

Definition type_error : PyException :=
  {| exc_mro := [TypeError; Exception; BaseException];
     exc_str := "name must not contain NUL byte";
     exc_repr := "TypeError('name must not contain NUL byte')" |}.

(** A verifier that compares the certificate's subject with the
    hostname. *)
Definition verify (c : @Connection openssl) (hostname : string) : result unit :=
  match get_peer_certificate c with
  | Return (Some cert) =>
      match get_subject cert with
      | Return subject =>
          if String.eqb subject "" then Raise value_error
          else if String.eqb subject hostname then Return tt
          else Raise certificate_error
      | Raise e => Raise e
      end
  | Return None => Raise attribute_error
  | Raise e => Raise e
  end.

(** What a helper raises when the engine lacks the function it needs. *)
Definition missing_function : PyException :=
  {| exc_mro := [OtherClass "AttributeError"; Exception; BaseException];
     exc_str := "module 'lib' has no attribute 'SSL_get_server_tmp_key'";
     exc_repr :=
       "AttributeError(" ++ dq
       ++ "module 'lib' has no attribute 'SSL_get_server_tmp_key'" ++ dq ++ ")" |}.

Definition imports : @Imports openssl :=
  {| ClientTLSOptions__init__ := fun hostname ctx =>
       {| _ctx := ctx;
          _hostname := hostname;
          _hostnameBytes := ascii_bytes hostname;
          _hostnameASCII := hostname |};
     verifyHostname := verify;
     get_temp_key_info := fun handle =>
       match handle with
       | 0%nat => Return None
       | 1%nat => Return (Some "ECDH, P-256, 256 bits")
       | _ => Raise missing_function
       end;
     x509name_to_string := fun name => Return name |}.

Definition options (verbose : bool) : @ScrapyClientTLSOptions openssl :=
  @__init__ openssl imports "example.org" tt verbose.

(** A connection whose peer presented a certificate for [subject]. *)
Definition connection_to (subject : string) : @Connection openssl :=
  {| servername := None;
     tlsext_host_name_error := fun _ => None;
     get_protocol_version_name := Return "TLSv1.3";
     get_cipher_name := Return (Some "TLS_AES_256_GCM_SHA384");
     get_peer_certificate :=
       Return (Some {| get_issuer := Return "/CN=Some CA";
                       get_subject := Return subject |});
     _ssl := 1%nat |}.

(** The same on an engine whose handle gives no temp key function. *)
Definition connection_without_key_function (subject : string)
  : @Connection openssl :=
  {| servername := None;
     tlsext_host_name_error := fun _ => None;
     get_protocol_version_name := Return "TLSv1.3";
     get_cipher_name := Return (Some "TLS_AES_256_GCM_SHA384");
     get_peer_certificate :=
       Return (Some {| get_issuer := Return "/CN=Some CA";
                       get_subject := Return subject |});
     _ssl := 2%nat |}.

(** A connection without a peer certificate. *)
Definition anonymous_connection : @Connection openssl :=
  {| servername := None;
     tlsext_host_name_error := fun _ => None;
     get_protocol_version_name := Return "TLSv1.3";
     get_cipher_name := Return None;
     get_peer_certificate := Return None;
     _ssl := 0%nat |}.

(** A connection whose engine refuses every server name. *)
Definition refusing_connection : @Connection openssl :=
  {| servername := None;
     tlsext_host_name_error := fun _ => Some type_error;
     get_protocol_version_name := Return "TLSv1.3";
     get_cipher_name := Return None;
     get_peer_certificate := Return None;
     _ssl := 0%nat |}.

Definition world (verbose : bool) (c : @Connection openssl) : @World openssl :=
  {| self := options verbose; connection := c; journal := [] |}.

Import FileHandler.

(** Whether [s] ends with [suffix]. *)
Definition ends_with (suffix s : string) : bool :=
  let n := String.length s in
  let k := String.length suffix in
  (k <=? n)%nat && String.eqb (substring (n - k) k s) suffix.

Definition invalid_ipv6_url : PyException :=
  {| exc_mro := [ValueError; Exception; BaseException];
     exc_str := "Invalid IPv6 URL";
     exc_repr := "ValueError('Invalid IPv6 URL')" |}.

Definition file_not_found : PyException :=
  {| exc_mro := [FileNotFoundError; OSError; Exception; BaseException];
     exc_str := "[Errno 2] No such file or directory";
     exc_repr := "FileNotFoundError(2, 'No such file or directory')" |}.

Fixpoint take_while (p : ascii -> bool) (s : string) : string :=
  match s with
  | EmptyString => EmptyString
  | String c rest => if p c then String c (take_while p rest) else EmptyString
  end.

Fixpoint drop_while (p : ascii -> bool) (s : string) : string :=
  match s with
  | EmptyString => EmptyString
  | String c rest => if p c then drop_while p rest else s
  end.

Fixpoint occurs (c : ascii) (s : string) : bool :=
  match s with
  | EmptyString => false
  | String d rest => Ascii.eqb c d || occurs c rest
  end.

Definition is_alpha (c : ascii) : bool :=
  let n := nat_of_ascii c in
  ((65 <=? n) && (n <=? 90) || (97 <=? n) && (n <=? 122))%nat.

Definition is_scheme_char (c : ascii) : bool :=
  let n := nat_of_ascii c in
  (is_alpha c || (48 <=? n) && (n <=? 57))%nat || occurs c "+-.".

(** The locator without its [scheme:], when it has one. *)
Definition strip_scheme (uri : string) : string :=
  match take_while is_scheme_char uri, drop_while is_scheme_char uri with
  | String c _, String ":" rest => if is_alpha c then rest else uri
  | _, _ => uri
  end.

(** A converter in the manner of [w3lib.url.file_uri_to_path], which is
    [url2pathname(urlparse(uri).path)]: the path component of the
    locator, whatever its scheme, and [ValueError] for a host with an
    unbalanced bracket; percent escapes are left as they are. *)
Definition path_of_locator (uri : string) : result string :=
  let in_netloc c := negb (occurs c "/?#") in
  let in_path c := negb (occurs c "?#") in
  match strip_scheme uri with
  | String "/" (String "/" rest) =>
      let netloc := take_while in_netloc rest in
      if xorb (occurs "[" netloc) (occurs "]" netloc)
      then Raise invalid_ipv6_url
      else Return (take_while in_path (drop_while in_netloc rest))
  | rest => Return (take_while in_path rest)
  end.

(** Whether the locator has the [file] scheme. *)
Definition has_file_scheme (uri : string) : bool :=
  String.prefix "file:" uri.

(** Response classes by name, text for [.txt]. *)
Definition file_imports : FileHandler.Imports :=
  {| ResponseClass := string;
     file_uri_to_path := path_of_locator;
     responsetypes_from_args := fun filename body =>
       if ends_with ".txt" filename then "TextResponse" else "Response" |}.

(** A file system with one readable file. *)
Definition disk : FileSystem :=
  fun path =>
    if String.eqb path "/path/to/existing.txt"
    then Return (ascii_bytes "hello")
    else Raise file_not_found.

(** The same, after another file was written. *)
Definition later_disk : FileSystem :=
  fun path =>
    if String.eqb path "/path/to/other.bin"
    then Return (ascii_bytes "new")
    else disk path.

Definition spider : Spider := {| name := "example" |}.

End Sample.


(* ===================================================================== *)
(** * The handshake callback: characteristic equations                    *)
(* ===================================================================== *)

(** Destruct, one after the other, the calls the verbose block makes. *)
Ltac block_cases :=
  unfold Tls.verbose_block, Tls.certificate_part;
  repeat match goal with
    | |- context [match ?x with Return _ => _ | Raise _ => _ end] => destruct x eqn:?
    | |- context [match ?x with Some _ => _ | None => _ end] => destruct x eqn:?
    | |- context [if truthy_opt_str ?k then _ else _] =>
        destruct (truthy_opt_str k) eqn:?
    end.

Section CallbackEquations.
Context `{Ssl : Tls.OpenSSL} `{Imp : @Tls.Imports Ssl}.
Import Tls.

Lemma after_events_after_events (evs1 evs2 : list Event) (w : World) :
  after_events evs2 (after_events evs1 w) = after_events (evs1 ++ evs2) w.
Proof.
  unfold after_events; simpl. now rewrite app_assoc.
Qed.

Lemma after_no_events (w : World) : after_events [] w = w.
Proof.
  destruct w; unfold after_events; simpl. now rewrite app_nil_r.
Qed.

Lemma records_at_app (level : Level) (evs1 evs2 : list Event) :
  records_at level (evs1 ++ evs2) = records_at level evs1 ++ records_at level evs2.
Proof.
  induction evs1 as [|ev evs1 IH]; simpl; [reflexivity|].
  destruct ev as [r| |]; auto.
  destruct (Level_eqb (levelname r) level); simpl; now rewrite IH.
Qed.

Lemma without_debug_app (evs1 evs2 : list Event) :
  without_debug (evs1 ++ evs2) = without_debug evs1 ++ without_debug evs2.
Proof.
  induction evs1 as [|ev evs1 IH]; simpl; [reflexivity|].
  destruct ev as [r| |]; simpl; try now rewrite IH.
  destruct (Level_eqb (levelname r) DEBUG); simpl; now rewrite IH.
Qed.

Lemma log_connection_parameters_eq (w : World) :
  log_connection_parameters w
  = let block := verbose_block (_hostnameASCII (super (self w))) (connection w) in
    (snd block, after_events (map Logged (fst block)) w).
Proof.
  destruct w as [this c j]. cbv zeta.
  unfold log_connection_parameters, after_events; simpl.
  unfold py_bind, gets, call, logger_debug, modify, record_event; simpl.
  block_cases; simpl; unfold py_ret; simpl;
    rewrite <- ?app_assoc, ?app_nil_r; reflexivity.
Qed.

Lemma verbose_block_logs_debug (hostname : string) (c : Connection) :
  Forall (fun r => levelname r = DEBUG) (fst (verbose_block hostname c)).
Proof.
  block_cases; simpl; repeat constructor.
Qed.

Lemma records_at_logged (level : Level) (records : list LogRecord) :
  Forall (fun r => levelname r = DEBUG) records ->
  records_at level (map Logged records)
  = if Level_eqb DEBUG level then records else [].
Proof.
  induction 1 as [|r records Hr _ IH]; cbn [records_at map].
  - now destruct (Level_eqb DEBUG level).
  - rewrite Hr, IH. now destruct (Level_eqb DEBUG level).
Qed.

Lemma without_debug_logged (records : list LogRecord) :
  Forall (fun r => levelname r = DEBUG) records ->
  without_debug (map Logged records) = [].
Proof.
  induction 1 as [|r records Hr _ IH]; cbn [without_debug map]; [reflexivity|].
  now rewrite Hr.
Qed.

Lemma verify_tolerating_errors_eq (w : World) :
  verify_tolerating_errors w
  = let hostname := _hostnameASCII (super (self w)) in
    let called := after_events [Called_verifyHostname hostname] w in
    match verifyHostname (connection w) hostname with
    | Return _ => (Return tt, called)
    | Raise e =>
        if isinstance_any e [CertificateError; VerificationError]
        then (Return tt, after_events [Logged (not_valid_record hostname e)] called)
        else if isinstance_any e [ValueError]
        then (Return tt, after_events [Logged (ignoring_record hostname e)] called)
        else (Raise e, called)
    end.
Proof.
  destruct w as [this c j].
  unfold verify_tolerating_errors, try_except, call_verifyHostname; simpl.
  unfold py_bind, gets, modify, call, record_event, after_events; simpl.
  destruct (verifyHostname c (_hostnameASCII (super this))) as [[]|e]; [reflexivity|].
  unfold find_clause, isinstance_any, existsb.
  destruct (isinstance e CertificateError || _); [reflexivity|].
  destruct (isinstance e ValueError || _); reflexivity.
Qed.

Lemma set_tlsext_host_name_eq (name : bytes) (w : World) :
  set_tlsext_host_name name w
  = match tlsext_host_name_error (connection w) name with
    | Some e => (Raise e, after_events [Called_set_tlsext_host_name name] w)
    | None =>
        (Return tt,
         after_events [Called_set_tlsext_host_name name]
           (set_connection (with_servername (connection w) name) w))
    end.
Proof.
  destruct w as [this c j].
  unfold set_tlsext_host_name; simpl.
  unfold py_bind, gets, modify, record_event, after_events; simpl.
  destruct (tlsext_host_name_error c name); reflexivity.
Qed.

(** The callback, branch by branch. *)
Lemma callback_eq (where_ : Z) (ret_ : PyVal) (w : World) :
  _identityVerifyingInfoCallback where_ ret_ w
  = if truthy_int (Z.land where_ SSL_CB_HANDSHAKE_START) then
      set_tlsext_host_name (_hostnameBytes (super (self w))) w
    else if truthy_int (Z.land where_ SSL_CB_HANDSHAKE_DONE) then
      if verbose_logging (self w) then
        let block := verbose_block (_hostnameASCII (super (self w))) (connection w) in
        match snd block with
        | Return _ => verify_tolerating_errors (after_events (map Logged (fst block)) w)
        | Raise e => (Raise e, after_events (map Logged (fst block)) w)
        end
      else verify_tolerating_errors w
    else (Return tt, w).
Proof.
  unfold _identityVerifyingInfoCallback; simpl.
  unfold py_bind at 1, gets at 1.
  destruct (truthy_int (Z.land where_ SSL_CB_HANDSHAKE_START)); [reflexivity|].
  destruct (truthy_int (Z.land where_ SSL_CB_HANDSHAKE_DONE)); [|reflexivity].
  unfold py_bind.
  destruct (verbose_logging (self w)).
  - rewrite log_connection_parameters_eq. cbv zeta.
    destruct (snd (verbose_block _ _)) as [[]|e]; reflexivity.
  - reflexivity.
Qed.

Lemma handshake_start_truthy (where_ : Z) :
  handshake_start where_ ->
  truthy_int (Z.land where_ SSL_CB_HANDSHAKE_START) = true.
Proof.
  unfold handshake_start, truthy_int. intros Hs.
  now apply negb_true_iff, Z.eqb_neq.
Qed.

Lemma handshake_done_truthy (where_ : Z) :
  handshake_done where_ ->
  truthy_int (Z.land where_ SSL_CB_HANDSHAKE_START) = false /\
  truthy_int (Z.land where_ SSL_CB_HANDSHAKE_DONE) = true.
Proof.
  unfold handshake_done, truthy_int. intros [Hs Hd]. split.
  - rewrite Hs. reflexivity.
  - now apply negb_true_iff, Z.eqb_neq.
Qed.

Lemma verify_keeps_self (w : World) :
  self (snd (verify_tolerating_errors w)) = self w.
Proof.
  rewrite verify_tolerating_errors_eq. cbv zeta.
  destruct (verifyHostname _ _) as [[]|e]; try reflexivity.
  destruct (isinstance_any e [CertificateError; VerificationError]);
    try reflexivity.
  destruct (isinstance_any e [ValueError]); reflexivity.
Qed.

(** Whatever the event and the outcome, a call leaves [self] alone. *)
Lemma callback_keeps_self (where_ : Z) (ret_ : PyVal) (w : World) :
  self (snd (_identityVerifyingInfoCallback where_ ret_ w)) = self w.
Proof.
  rewrite callback_eq.
  destruct (truthy_int (Z.land where_ SSL_CB_HANDSHAKE_START)).
  - rewrite set_tlsext_host_name_eq.
    destruct (tlsext_host_name_error _ _); reflexivity.
  - destruct (truthy_int (Z.land where_ SSL_CB_HANDSHAKE_DONE)); [|reflexivity].
    destruct (verbose_logging (self w)); [|apply verify_keeps_self].
    cbv zeta. destruct (snd (verbose_block _ _)) as [[]|e]; [|reflexivity].
    now rewrite verify_keeps_self.
Qed.

Lemma run_callbacks_keeps_self (calls : list (Connection * Z * PyVal)) (w : World) :
  self (run_callbacks calls w) = self w.
Proof.
  revert w. induction calls as [|[[c where_] ret_] rest IH]; intros w; simpl.
  - reflexivity.
  - rewrite IH, callback_keeps_self. reflexivity.
Qed.

Lemma append_empty_r (s : string) : (s ++ "")%string = s.
Proof.
  induction s as [|c s IH]; simpl; [reflexivity | now rewrite IH].
Qed.

Lemma getMessage_not_valid (hostname : string) (e : PyException) :
  getMessage (not_valid_record hostname e)
  = Some ("Remote certificate is not valid for hostname " ++ dq ++ hostname ++ dq
          ++ "; " ++ exc_str e)%string.
Proof.
  unfold getMessage; simpl. now rewrite append_empty_r.
Qed.

Lemma getMessage_ignoring (hostname : string) (e : PyException) :
  getMessage (ignoring_record hostname e)
  = Some ("Ignoring error while verifying certificate from host " ++ dq
          ++ hostname ++ dq ++ " (exception: " ++ exc_repr e ++ ")")%string.
Proof.
  unfold getMessage; simpl. reflexivity.
Qed.

End CallbackEquations.

(* ===================================================================== *)
(** * The handshake callback: what the specification says of it          *)
(* ===================================================================== *)

Section HandshakeCallback.
Context `{Ssl : Tls.OpenSSL} `{Imp : @Tls.Imports Ssl}.
Import Tls.

Lemma handshake_done_of_truthy (where_ : Z) :
  truthy_int (Z.land where_ SSL_CB_HANDSHAKE_START) = false ->
  truthy_int (Z.land where_ SSL_CB_HANDSHAKE_DONE) = true ->
  handshake_done where_.
Proof.
  unfold handshake_done, truthy_int. intros Hs Hd. split.
  - now apply Z.eqb_eq, negb_false_iff.
  - now apply Z.eqb_neq, negb_true_iff.
Qed.

(** The events of the handshake-done branch, as one list after the
    journal of the call: the records of the verbose block when the flag
    is on, and then either the exception of that block or the
    verification and what it leads to. *)
Lemma callback_done_eq (where_ : Z) (ret_ : PyVal) (w : World) :
  handshake_done where_ ->
  let hostname := _hostnameASCII (super (self w)) in
  let block := verbose_block hostname (connection w) in
  let debug := if verbose_logging (self w) then map Logged (fst block) else [] in
  let called := Called_verifyHostname hostname in
  _identityVerifyingInfoCallback where_ ret_ w
  = match (if verbose_logging (self w) then snd block else Return tt) with
    | Raise e => (Raise e, after_events debug w)
    | Return _ =>
        match verifyHostname (connection w) hostname with
        | Return _ => (Return tt, after_events (debug ++ [called]) w)
        | Raise e =>
            if isinstance_any e [CertificateError; VerificationError]
            then (Return tt,
                  after_events (debug ++ [called; Logged (not_valid_record hostname e)]) w)
            else if isinstance_any e [ValueError]
            then (Return tt,
                  after_events (debug ++ [called; Logged (ignoring_record hostname e)]) w)
            else (Raise e, after_events (debug ++ [called]) w)
        end
    end.
Proof.
  intros Hdone. destruct (handshake_done_truthy _ Hdone) as [Hs Hd].
  rewrite callback_eq, Hs, Hd. cbv zeta.
  destruct (verbose_logging (self w)).
  - destruct (snd (verbose_block _ _)) as [[]|e0]; [|reflexivity].
    rewrite verify_tolerating_errors_eq. cbv zeta.
    change (self (after_events ?evs w)) with (self w).
    change (connection (after_events ?evs w)) with (connection w).
    destruct (verifyHostname _ _) as [[]|e];
      [|destruct (isinstance_any e [CertificateError; VerificationError]);
        [|destruct (isinstance_any e [ValueError])]];
      rewrite ?after_events_after_events; reflexivity.
  - rewrite verify_tolerating_errors_eq. cbv zeta.
    destruct (verifyHostname _ _) as [[]|e];
      [|destruct (isinstance_any e [CertificateError; VerificationError]);
        [|destruct (isinstance_any e [ValueError])]];
      rewrite ?after_events_after_events; reflexivity.
Qed.

(** When the verification is reached, the verbose block has not
    raised. *)
Lemma reached_block_returns (w : World) :
  verification_is_reached w ->
  (if verbose_logging (self w)
   then snd (verbose_block (_hostnameASCII (super (self w))) (connection w))
   else Return tt) = Return tt.
Proof.
  unfold verification_is_reached. rewrite log_connection_parameters_eq.
  destruct (verbose_logging (self w)); [|reflexivity].
  intros Hreached. apply Hreached. reflexivity.
Qed.

Lemma records_at_debug_part (level : Level) (w : World) :
  records_at level
    (if verbose_logging (self w)
     then map Logged
            (fst (verbose_block (_hostnameASCII (super (self w))) (connection w)))
     else [])
  = if verbose_logging (self w) && Level_eqb DEBUG level
    then fst (verbose_block (_hostnameASCII (super (self w))) (connection w))
    else [].
Proof.
  destruct (verbose_logging (self w)); simpl andb; [|reflexivity].
  apply records_at_logged, verbose_block_logs_debug.
Qed.

(** The verbose block when every call in it returns. *)
Lemma verbose_block_returning
    (hostname : string) (c : Connection)
    (protocol : string) (cipher : option string) (server_cert : option X509)
    (issuer subject : string) (key_info : option string) :
  get_protocol_version_name c = Return protocol ->
  get_cipher_name c = Return cipher ->
  get_peer_certificate c = Return server_cert ->
  (forall cert, server_cert = Some cert ->
     exists issuer_name subject_name,
       get_issuer cert = Return issuer_name
       /\ x509name_to_string issuer_name = Return issuer
       /\ get_subject cert = Return subject_name
       /\ x509name_to_string subject_name = Return subject) ->
  get_temp_key_info (_ssl c) = Return key_info ->
  verbose_block hostname c
  = (connection_record hostname protocol cipher
     :: match server_cert with
        | Some _ => [certificate_record issuer subject]
        | None => []
        end
     ++ (if truthy_opt_str key_info then [temp_key_record key_info] else []),
     Return tt).
Proof.
  intros Hprotocol Hcipher Hcert Hnames Hkey.
  unfold verbose_block, certificate_part.
  rewrite Hprotocol, Hcipher, Hcert, Hkey.
  destruct server_cert as [cert|]; [|reflexivity].
  destruct (Hnames cert eq_refl) as (i & s & -> & -> & -> & ->).
  reflexivity.
Qed.

(** C1. On a handshake-done event of a context with stored hostname
    [H], when the verification is reached and [verifyHostname] raises
    an exception that is a [CertificateError] or a [VerificationError],
    the callback returns normally: the exception is caught, the context
    and the connection are as they were, and among the events of the
    call there is exactly one warning record, the "Remote certificate
    is not valid for hostname" one, whose arguments are [H] and the
    exception and whose text shows [H] and [str] of the exception. *)
Theorem identity_error_is_warned_not_raised
    (w : World) (where_ : Z) (ret_ : PyVal) (e : PyException) :
  handshake_done where_ ->
  verification_is_reached w ->
  verifyHostname (connection w) (_hostnameASCII (super (self w))) = Raise e ->
  isinstance e CertificateError = true \/ isinstance e VerificationError = true ->
  let H := _hostnameASCII (super (self w)) in
  let warning :=
    {| levelname := WARNING; msg := msg_not_valid; args := [PyStr H; PyExc e] |} in
  exists events,
    _identityVerifyingInfoCallback where_ ret_ w = (Return tt, after_events events w)
    /\ records_at WARNING events = [warning]
    /\ getMessage warning
       = Some ("Remote certificate is not valid for hostname " ++ dq ++ H ++ dq
               ++ "; " ++ exc_str e)%string.
Proof.
  intros Hdone Hreached Hraise Hclass H warning.
  assert (Hany : isinstance_any e [CertificateError; VerificationError] = true).
  { unfold isinstance_any, existsb.
    destruct Hclass as [-> | ->]; [reflexivity | apply orb_true_r]. }
  rewrite (callback_done_eq where_ ret_ w Hdone). cbv zeta.
  rewrite (reached_block_returns w Hreached), Hraise, Hany.
  eexists. split; [reflexivity|]. split.
  - rewrite records_at_app, records_at_debug_part, andb_false_r. reflexivity.
  - apply getMessage_not_valid.
Qed.

(** C2. On a handshake-done event, when the verification is reached
    and [verifyHostname] raises a [ValueError] that is neither a
    [CertificateError] nor a [VerificationError], the callback returns
    normally, the context and the connection are as they were, and
    among the events of the call there is exactly one warning record,
    the "Ignoring error while verifying certificate" one, whose
    arguments are the hostname and the exception and whose text shows
    the hostname and [repr] of the exception. *)
Theorem value_error_is_warned_not_raised
    (w : World) (where_ : Z) (ret_ : PyVal) (e : PyException) :
  handshake_done where_ ->
  verification_is_reached w ->
  verifyHostname (connection w) (_hostnameASCII (super (self w))) = Raise e ->
  isinstance e ValueError = true ->
  isinstance e CertificateError = false ->
  isinstance e VerificationError = false ->
  let H := _hostnameASCII (super (self w)) in
  let warning :=
    {| levelname := WARNING; msg := msg_ignoring; args := [PyStr H; PyExc e] |} in
  exists events,
    _identityVerifyingInfoCallback where_ ret_ w = (Return tt, after_events events w)
    /\ records_at WARNING events = [warning]
    /\ getMessage warning
       = Some ("Ignoring error while verifying certificate from host " ++ dq
               ++ H ++ dq ++ " (exception: " ++ exc_repr e ++ ")")%string.
Proof.
  intros Hdone Hreached Hraise Hvalue Hcert Hverif H warning.
  rewrite (callback_done_eq where_ ret_ w Hdone). cbv zeta.
  rewrite (reached_block_returns w Hreached), Hraise.
  unfold isinstance_any, existsb.
  rewrite Hcert, Hverif, Hvalue. cbn [orb].
  eexists. split; [reflexivity|]. split.
  - rewrite records_at_app, records_at_debug_part, andb_false_r. reflexivity.
  - apply getMessage_ignoring.
Qed.

(** C3. On a handshake-done event, when the verification is reached
    and [verifyHostname] raises an exception that is none of
    [CertificateError], [VerificationError] and [ValueError], the
    callback raises that same exception, and no warning record is among
    the events of the call. *)
Theorem other_error_propagates
    (w : World) (where_ : Z) (ret_ : PyVal) (e : PyException) :
  handshake_done where_ ->
  verification_is_reached w ->
  verifyHostname (connection w) (_hostnameASCII (super (self w))) = Raise e ->
  isinstance e CertificateError = false ->
  isinstance e VerificationError = false ->
  isinstance e ValueError = false ->
  exists events,
    _identityVerifyingInfoCallback where_ ret_ w = (Raise e, after_events events w)
    /\ records_at WARNING events = [].
Proof.
  intros Hdone Hreached Hraise Hcert Hverif Hvalue.
  rewrite (callback_done_eq where_ ret_ w Hdone). cbv zeta.
  rewrite (reached_block_returns w Hreached), Hraise.
  unfold isinstance_any, existsb.
  rewrite Hcert, Hverif, Hvalue. cbn [orb].
  eexists. split; [reflexivity|].
  rewrite records_at_app, records_at_debug_part, andb_false_r. reflexivity.
Qed.

(** C4. On a handshake-start event of a context built by [__init__],
    whatever callbacks ran on it before, the callback calls
    [set_tlsext_host_name] with the hostname bytes the constructor
    stored and does nothing else.  When the engine accepts the name the
    callback returns, the connection has that server name and is
    otherwise as it was, and nothing is logged; when the engine raises,
    that exception comes out of the callback and the connection is as
    it was. *)
Theorem handshake_start_sets_server_name
    (hostname : string) (ctx : SSL_Context) (verbose : bool)
    (calls : list (Connection * Z * PyVal)) (w0 : World)
    (where_ : Z) (ret_ : PyVal) :
  self w0 = __init__ hostname ctx verbose ->
  handshake_start where_ ->
  let w := run_callbacks calls w0 in
  let name := _hostnameBytes (ClientTLSOptions__init__ hostname ctx) in
  let run := _identityVerifyingInfoCallback where_ ret_ w in
  (tlsext_host_name_error (connection w) name = None ->
     run = (Return tt,
            after_events [Called_set_tlsext_host_name name]
              (set_connection (with_servername (connection w) name) w))
     /\ servername (connection (snd run)) = Some name)
  /\ (forall e, tlsext_host_name_error (connection w) name = Some e ->
        run = (Raise e, after_events [Called_set_tlsext_host_name name] w)).
Proof.
  intros Hself Hstart w name run.
  assert (Hname : _hostnameBytes (super (self w)) = name).
  { unfold w. rewrite run_callbacks_keeps_self, Hself. reflexivity. }
  assert (Hrun : run = set_tlsext_host_name name w).
  { unfold run. rewrite callback_eq, (handshake_start_truthy _ Hstart), Hname.
    reflexivity. }
  rewrite Hrun, set_tlsext_host_name_eq. split.
  - intros ->. split; reflexivity.
  - intros e ->. reflexivity.
Qed.

(** C5. On a handshake-done event, whatever the verification then
    does: with verbose logging off, no debug record is among the events
    of the call; with verbose logging on, and for the values the calls
    of the verbose block return, the debug records are the connection
    record (hostname, protocol version name, cipher name), then the
    certificate record exactly when the connection has a peer
    certificate, then the temp-key record exactly when
    [get_temp_key_info] gives a non-empty string, each of the last two
    present or absent on its own condition alone. *)
Theorem verbose_logging_decides_debug_records
    (w : World) (where_ : Z) (ret_ : PyVal) :
  handshake_done where_ ->
  let this := self w in
  let c := connection w in
  exists outcome events,
    _identityVerifyingInfoCallback where_ ret_ w = (outcome, after_events events w)
    /\ (verbose_logging this = false -> records_at DEBUG events = [])
    /\ (verbose_logging this = true ->
        forall (protocol : string) (cipher : option string)
               (server_cert : option X509) (issuer subject : string)
               (key_info : option string),
          get_protocol_version_name c = Return protocol ->
          get_cipher_name c = Return cipher ->
          get_peer_certificate c = Return server_cert ->
          (forall cert, server_cert = Some cert ->
             exists issuer_name subject_name,
               get_issuer cert = Return issuer_name
               /\ x509name_to_string issuer_name = Return issuer
               /\ get_subject cert = Return subject_name
               /\ x509name_to_string subject_name = Return subject) ->
          get_temp_key_info (_ssl c) = Return key_info ->
          let debug := records_at DEBUG events in
          debug
          = {| levelname := DEBUG;
               msg := msg_connection;
               args := [PyStr (_hostnameASCII (super this));
                        PyStr protocol;
                        of_optional_str cipher] |}
            :: match server_cert with
               | Some _ =>
                   [{| levelname := DEBUG;
                       msg := msg_certificate;
                       args := [PyStr issuer; PyStr subject] |}]
               | None => []
               end
            ++ (if truthy_opt_str key_info
                then [{| levelname := DEBUG;
                         msg := msg_temp_key;
                         args := [of_optional_str key_info] |}]
                else [])
          /\ ((exists r, In r debug /\ msg r = msg_certificate)
              <-> server_cert <> None)
          /\ ((exists r, In r debug /\ msg r = msg_temp_key)
              <-> truthy_opt_str key_info = true)).
Proof.
  intros Hdone this c.
  assert (Hrun : exists outcome tail,
             _identityVerifyingInfoCallback where_ ret_ w
             = (outcome,
                after_events
                  ((if verbose_logging this
                    then map Logged
                           (fst (verbose_block (_hostnameASCII (super this)) c))
                    else []) ++ tail) w)
             /\ records_at DEBUG tail = []).
  { rewrite (callback_done_eq where_ ret_ w Hdone). cbv zeta. fold this c.
    destruct (if verbose_logging this then snd (verbose_block _ c) else Return tt)
      as [[]|e0].
    - destruct (verifyHostname _ _) as [[]|e];
        [|destruct (isinstance_any e [CertificateError; VerificationError]);
          [|destruct (isinstance_any e [ValueError])]];
        do 2 eexists; (split; [reflexivity|reflexivity]).
    - exists (Raise e0), []. rewrite app_nil_r. split; reflexivity. }
  destruct Hrun as (outcome & tail & Hrun & Htail).
  exists outcome. eexists. split; [exact Hrun|].
  rewrite records_at_app, Htail, app_nil_r.
  unfold this, c. rewrite records_at_debug_part. fold this c. split.
  - intros ->. reflexivity.
  - intros -> protocol cipher server_cert issuer subject key_info
      Hprotocol Hcipher Hcert Hnames Hkey. cbv zeta. cbn [andb Level_eqb].
    rewrite (verbose_block_returning _ c _ _ _ _ _ _
               Hprotocol Hcipher Hcert Hnames Hkey).
    cbn [fst]. split; [reflexivity|].
    destruct server_cert as [cert|];
      destruct (truthy_opt_str key_info);
      (split; (split; [ intros (r & Hin & Hmsg) | intros Hyes ]));
      try congruence;
      try (exists (certificate_record issuer subject);
           split; [simpl; auto | reflexivity]);
      try (exists (temp_key_record key_info);
           split; [simpl; auto | reflexivity]);
      exfalso; simpl in Hin; decompose [or] Hin; try contradiction; subst;
      vm_compute in Hmsg; discriminate.
Qed.

(** C9. A call of the callback, for any event value, any connection
    and whatever it returns or raises, leaves the context as it was;
    so after any number of calls a context built by [__init__] still
    has the ASCII hostname and the hostname bytes its constructor
    stored, and the verbose-logging flag it was given. *)
Theorem context_is_fixed_at_construction
    (hostname : string) (ctx : SSL_Context) (verbose : bool)
    (c : Connection) (j : list Event)
    (calls : list (Connection * Z * PyVal)) :
  (forall where_ ret_ w,
      self (snd (_identityVerifyingInfoCallback where_ ret_ w)) = self w)
  /\ let built := ClientTLSOptions__init__ hostname ctx in
     let w0 := {| self := __init__ hostname ctx verbose;
                  connection := c; journal := j |} in
     let this := self (run_callbacks calls w0) in
     _hostnameASCII (super this) = _hostnameASCII built
     /\ _hostnameBytes (super this) = _hostnameBytes built
     /\ verbose_logging this = verbose.
Proof.
  split.
  - intros where_ ret_ w. apply callback_keeps_self.
  - cbv zeta. rewrite run_callbacks_keeps_self. simpl. auto.
Qed.

(** C10. Two runs of the callback on the same connection, hostname and
    journal that differ only in the verbose-logging flag, on a
    connection where the calls of the verbose block return, return or
    raise the same, leave the same connection, and their journals
    without the debug records are the same: the same call of
    [verifyHostname], the same warning records.  This holds for every
    event value, the handshake-done one among them. *)
Theorem verbose_flag_only_adds_debug_records
    (w : World) (where_ : Z) (ret_ : PyVal) (flag1 flag2 : bool) :
  fst (log_connection_parameters w) = Return tt ->
  let run1 := _identityVerifyingInfoCallback where_ ret_ (with_verbose_logging flag1 w) in
  let run2 := _identityVerifyingInfoCallback where_ ret_ (with_verbose_logging flag2 w) in
  fst run1 = fst run2
  /\ connection (snd run1) = connection (snd run2)
  /\ super (self (snd run1)) = super (self (snd run2))
  /\ without_debug (journal (snd run1)) = without_debug (journal (snd run2))
  /\ records_at WARNING (journal (snd run1)) = records_at WARNING (journal (snd run2)).
Proof.
  rewrite log_connection_parameters_eq. cbv zeta. cbn [fst]. intros Hblock.
  destruct (truthy_int (Z.land where_ SSL_CB_HANDSHAKE_START)) eqn:Hs.
  - rewrite !callback_eq, Hs, !set_tlsext_host_name_eq.
    cbn [with_verbose_logging self connection super _hostnameBytes].
    destruct (tlsext_host_name_error _ _); repeat split; reflexivity.
  - destruct (truthy_int (Z.land where_ SSL_CB_HANDSHAKE_DONE)) eqn:Hd.
    + pose proof (handshake_done_of_truthy _ Hs Hd) as Hdone.
      pose proof (verbose_block_logs_debug
                    (_hostnameASCII (super (self w))) (connection w)) as Hdebug.
      rewrite !(callback_done_eq where_ ret_ _ Hdone). cbv zeta.
      cbn [with_verbose_logging self connection super verbose_logging].
      rewrite Hblock.
      assert (Hreturns : forall flag : bool,
                 (if flag then Return tt else Return tt) = @Return unit tt)
        by (intros []; reflexivity).
      rewrite !Hreturns.
      destruct (verifyHostname _ _) as [[]|e];
        [|destruct (isinstance_any e [CertificateError; VerificationError]);
          [|destruct (isinstance_any e [ValueError])]];
        cbn [fst snd after_events self connection super journal];
        rewrite !without_debug_app, !records_at_app;
        destruct flag1, flag2;
        rewrite ?(without_debug_logged _ Hdebug), ?(records_at_logged _ _ Hdebug);
        repeat split; reflexivity.
    + rewrite !callback_eq, Hs, Hd. repeat split; reflexivity.
Qed.

End HandshakeCallback.

(* ===================================================================== *)
(** * The file download handler                                           *)
(* ===================================================================== *)

Section FileDownload.
Context `{Imp : FileHandler.Imports}.
Import FileHandler.

(** The handler, step by step: the conversion, then the read, then the
    response; the file system is only read. *)
Lemma download_request_eq (request : Request) (spider : Spider) (fs : FileSystem) :
  download_request request spider fs
  = match file_uri_to_path (url request) with
    | Raise e => (fail e, fs)
    | Return filepath =>
        match fs filepath with
        | Raise e => (fail e, fs)
        | Return body =>
            (succeed {| response_class := responsetypes_from_args filepath body;
                        response_url := url request;
                        response_body := body |}, fs)
        end
    end.
Proof.
  unfold download_request, defers, download_request_body, read_bytes; simpl.
  unfold py_bind, call.
  destruct (file_uri_to_path (url request)) as [filepath|e]; [|reflexivity].
  destruct (fs filepath) as [body|e]; reflexivity.
Qed.

(** C6. When the locator converts to a path and the file at that path
    reads as [content], [download_request] gives a deferred that has
    fired with a response whose body is [content], whose url is the
    locator of the request, and whose class is what [from_args] picks
    for the path and that body. *)
Theorem download_request_returns_the_file
    (request : Request) (spider : Spider) (fs : FileSystem)
    (filepath : string) (content : bytes) :
  file_uri_to_path (url request) = Return filepath ->
  fs filepath = Return content ->
  exists response,
    download_request request spider fs = (succeed response, fs)
    /\ response_body response = content
    /\ response_url response = url request
    /\ response_class response = responsetypes_from_args filepath content.
Proof.
  intros Hpath Hread. rewrite download_request_eq, Hpath, Hread.
  eexists. repeat split.
Qed.

(** C7. When the conversion of the locator raises, [download_request]
    gives a deferred that has failed with that exception; when the
    conversion gives a path and reading it raises, it gives a deferred
    that has failed with the exception of the read.  Either way the
    caller of this request gets the failure, of the class the
    collaborator raised, and no response. *)
Theorem download_request_surfaces_failures
    (request : Request) (spider : Spider) (fs : FileSystem) :
  (forall e,
      file_uri_to_path (url request) = Raise e ->
      download_request request spider fs = (fail e, fs))
  /\ (forall filepath e,
        file_uri_to_path (url request) = Return filepath ->
        fs filepath = Raise e ->
        download_request request spider fs = (fail e, fs)).
Proof.
  split.
  - intros e Hpath. now rewrite download_request_eq, Hpath.
  - intros filepath e Hpath Hread. now rewrite download_request_eq, Hpath, Hread.
Qed.

(** C8. A call leaves the file system as it found it, and a later
    call on the same request gives the same deferred (the same body
    bytes, url and response class, or the same failure) in every file
    system where the path the locator names reads the same, whatever
    else has changed. *)
Theorem download_request_is_repeatable
    (request : Request) (spider : Spider) (fs : FileSystem) :
  let first := download_request request spider fs in
  snd first = fs
  /\ download_request request spider (snd first) = first
  /\ (forall (fs' : FileSystem),
        (forall filepath,
            file_uri_to_path (url request) = Return filepath ->
            fs' filepath = fs filepath) ->
        fst (download_request request spider fs') = fst first).
Proof.
  cbv zeta.
  assert (Hsame : snd (download_request request spider fs) = fs).
  { rewrite download_request_eq.
    destruct (file_uri_to_path (url request)) as [filepath|e]; [|reflexivity].
    destruct (fs filepath); reflexivity. }
  split; [exact Hsame|]. split.
  - now rewrite Hsame.
  - intros fs' Hunchanged. rewrite !download_request_eq.
    destruct (file_uri_to_path (url request)) as [filepath|e]; [|reflexivity].
    rewrite (Hunchanged filepath eq_refl).
    destruct (fs filepath); reflexivity.
Qed.

End FileDownload.

(* ===================================================================== *)
(** * The theorems at work on the sample instance                         *)
(* ===================================================================== *)

Section Runs.
Import Tls FileHandler.

Lemma sample_done_event : @handshake_done Sample.openssl 32.
Proof.
  split; [reflexivity | discriminate].
Defined.

(** The certificate is for another host: one warning, no exception. *)
Lemma identity_error_is_warned_not_raised_witness :
  let w := Sample.world true (Sample.connection_to "other.example") in
  let warning :=
    {| levelname := WARNING;
       msg := msg_not_valid;
       args := [PyStr "example.org"; PyExc Sample.certificate_error] |} in
  exists events,
    @_identityVerifyingInfoCallback Sample.openssl Sample.imports 32 PyNone w
    = (Return tt, after_events events w)
    /\ records_at WARNING events = [warning]
    /\ getMessage warning
       = Some ("Remote certificate is not valid for hostname " ++ dq
               ++ "example.org" ++ dq ++ "; no name matches")%string.
Proof.
  apply (@identity_error_is_warned_not_raised Sample.openssl Sample.imports
           (Sample.world true (Sample.connection_to "other.example"))
           32 PyNone Sample.certificate_error).
  - exact sample_done_event.
  - intros _. reflexivity.
  - reflexivity.
  - left. reflexivity.
Defined.

(** The certificate has an empty subject: the generic warning. *)
Lemma value_error_is_warned_not_raised_witness :
  let w := Sample.world false (Sample.connection_to "") in
  let warning :=
    {| levelname := WARNING;
       msg := msg_ignoring;
       args := [PyStr "example.org"; PyExc Sample.value_error] |} in
  exists events,
    @_identityVerifyingInfoCallback Sample.openssl Sample.imports 32 PyNone w
    = (Return tt, after_events events w)
    /\ records_at WARNING events = [warning]
    /\ getMessage warning
       = Some ("Ignoring error while verifying certificate from host " ++ dq
               ++ "example.org" ++ dq
               ++ " (exception: ValueError('empty subject'))")%string.
Proof.
  apply (@value_error_is_warned_not_raised Sample.openssl Sample.imports
           (Sample.world false (Sample.connection_to ""))
           32 PyNone Sample.value_error).
  - exact sample_done_event.
  - intros Hverbose. discriminate Hverbose.
  - reflexivity.
  - reflexivity.
  - reflexivity.
  - reflexivity.
Defined.

(** No certificate at all: the verifier's [AttributeError] comes out. *)
Lemma other_error_propagates_witness :
  let w := Sample.world true Sample.anonymous_connection in
  exists events,
    @_identityVerifyingInfoCallback Sample.openssl Sample.imports 32 PyNone w
    = (Raise Sample.attribute_error, after_events events w)
    /\ records_at WARNING events = [].
Proof.
  apply (@other_error_propagates Sample.openssl Sample.imports
           (Sample.world true Sample.anonymous_connection)
           32 PyNone Sample.attribute_error).
  - exact sample_done_event.
  - intros _. reflexivity.
  - reflexivity.
  - reflexivity.
  - reflexivity.
  - reflexivity.
Defined.

(** A start event after a done event on the same context: the server
    name is the bytes of "example.org". *)
Lemma handshake_start_sets_server_name_witness :
  let earlier := [(Sample.connection_to "other.example", 32%Z, PyNone)] in
  let w := @run_callbacks Sample.openssl Sample.imports earlier
             (Sample.world true Sample.anonymous_connection) in
  let run := @_identityVerifyingInfoCallback Sample.openssl Sample.imports 16 PyNone w in
  fst run = Return tt
  /\ servername (connection (snd run)) = Some (Sample.ascii_bytes "example.org").
Proof.
  destruct (@handshake_start_sets_server_name Sample.openssl Sample.imports
              "example.org" tt true
              [(Sample.connection_to "other.example", 32%Z, PyNone)]
              (Sample.world true Sample.anonymous_connection)
              16 PyNone eq_refl)
    as [Haccepted _].
  - unfold handshake_start. simpl. discriminate.
  - destruct (Haccepted eq_refl) as [Hrun Hname]. cbv zeta. split.
    + rewrite Hrun. reflexivity.
    + exact Hname.
Defined.

(** Verbose logging on a connection with a certificate and a temp key:
    three debug records. *)
Lemma verbose_logging_decides_debug_records_witness :
  let w := Sample.world true (Sample.connection_to "example.org") in
  exists outcome events,
    @_identityVerifyingInfoCallback Sample.openssl Sample.imports 32 PyNone w
    = (outcome, after_events events w)
    /\ List.length (records_at DEBUG events) = 3%nat.
Proof.
  destruct (@verbose_logging_decides_debug_records Sample.openssl Sample.imports
              (Sample.world true (Sample.connection_to "example.org"))
              32 PyNone sample_done_event)
    as (outcome & events & Hrun & _ & Hverbose).
  destruct (Hverbose eq_refl
              "TLSv1.3" (Some "TLS_AES_256_GCM_SHA384")
              (Some {| get_issuer := Return "/CN=Some CA" : result (@X509Name Sample.openssl);
                       get_subject := Return "example.org" : result (@X509Name Sample.openssl) |})
              "/CN=Some CA" "example.org" (Some "ECDH, P-256, 256 bits")
              eq_refl eq_refl eq_refl)
    as [Hdebug _].
  - intros cert Hcert. injection Hcert as <-.
    exists "/CN=Some CA", "example.org". repeat split; reflexivity.
  - reflexivity.
  - exists outcome, events. split; [exact Hrun|].
    rewrite Hdebug. reflexivity.
Defined.

(** The file that is there: its bytes, the locator, a text response. *)
Lemma download_request_returns_the_file_witness :
  exists response,
    @download_request Sample.file_imports
      {| url := "file:///path/to/existing.txt" |} Sample.spider Sample.disk
    = (succeed response, Sample.disk)
    /\ response_body response = Sample.ascii_bytes "hello"
    /\ response_url response = "file:///path/to/existing.txt"
    /\ response_class response = "TextResponse".
Proof.
  apply (@download_request_returns_the_file Sample.file_imports
           {| url := "file:///path/to/existing.txt" |} Sample.spider Sample.disk
           "/path/to/existing.txt" (Sample.ascii_bytes "hello")).
  - reflexivity.
  - reflexivity.
Defined.

(** A locator the conversion refuses, and a file that is not there. *)
Lemma download_request_surfaces_failures_witness :
  @download_request Sample.file_imports
    {| url := "file://[::1/x" |} Sample.spider Sample.disk
  = (fail Sample.invalid_ipv6_url, Sample.disk)
  /\ @download_request Sample.file_imports
       {| url := "file:///path/to/missing.bin" |} Sample.spider Sample.disk
     = (fail Sample.file_not_found, Sample.disk).
Proof.
  split.
  - apply (proj1 (@download_request_surfaces_failures Sample.file_imports
                    {| url := "file://[::1/x" |} Sample.spider Sample.disk)).
    reflexivity.
  - apply (proj2 (@download_request_surfaces_failures Sample.file_imports
                    {| url := "file:///path/to/missing.bin" |} Sample.spider Sample.disk)
             "/path/to/missing.bin").
    + reflexivity.
    + reflexivity.
Defined.

(** The same file read again after another file was written. *)
Lemma download_request_is_repeatable_witness :
  fst (@download_request Sample.file_imports
         {| url := "file:///path/to/existing.txt" |} Sample.spider Sample.later_disk)
  = fst (@download_request Sample.file_imports
           {| url := "file:///path/to/existing.txt" |} Sample.spider Sample.disk).
Proof.
  apply (proj2 (proj2 (@download_request_is_repeatable Sample.file_imports
                         {| url := "file:///path/to/existing.txt" |}
                         Sample.spider Sample.disk))).
  intros filepath Hpath.
  assert (filepath = "/path/to/existing.txt") as ->.
  { vm_compute in Hpath. congruence. }
  reflexivity.
Defined.

(** The flag on and off on a connection whose certificate is for
    another host: the same outcome, the same warning. *)
Lemma verbose_flag_only_adds_debug_records_witness :
  let w := Sample.world false (Sample.connection_to "other.example") in
  let run1 := @_identityVerifyingInfoCallback Sample.openssl Sample.imports 32 PyNone
                (with_verbose_logging true w) in
  let run2 := @_identityVerifyingInfoCallback Sample.openssl Sample.imports 32 PyNone
                (with_verbose_logging false w) in
  fst run1 = fst run2
  /\ connection (snd run1) = connection (snd run2)
  /\ super (self (snd run1)) = super (self (snd run2))
  /\ without_debug (journal (snd run1)) = without_debug (journal (snd run2))
  /\ records_at WARNING (journal (snd run1)) = records_at WARNING (journal (snd run2)).
Proof.
  apply (@verbose_flag_only_adds_debug_records Sample.openssl Sample.imports
           (Sample.world false (Sample.connection_to "other.example"))
           32 PyNone true false).
  reflexivity.
Defined.

(** The flag on and off on an engine whose temp key helper raises: with
    the flag off the certificate is verified and the mismatch warned
    about; with the flag on the helper's exception comes out of the
    callback, before any verification and with no warning. *)
Lemma verbose_flag_can_change_the_outcome :
  let w := Sample.world false (Sample.connection_without_key_function "other.example") in
  let quiet := @_identityVerifyingInfoCallback Sample.openssl Sample.imports 32 PyNone
                 (with_verbose_logging false w) in
  let verbose := @_identityVerifyingInfoCallback Sample.openssl Sample.imports 32 PyNone
                   (with_verbose_logging true w) in
  fst quiet = Return tt
  /\ fst verbose = Raise Sample.missing_function
  /\ filter is_verify_call (journal (snd quiet)) = [Called_verifyHostname "example.org"]
  /\ filter is_verify_call (journal (snd verbose)) = []
  /\ records_at WARNING (journal (snd quiet))
     = [not_valid_record "example.org" Sample.certificate_error]
  /\ records_at WARNING (journal (snd verbose)) = [].
Proof.
  repeat split; reflexivity.
Qed.

(** The start bit wins over the done bit: an event with both set runs
    the start branch. *)
Lemma start_bit_takes_precedence :
  let w := Sample.world true (Sample.connection_to "other.example") in
  @_identityVerifyingInfoCallback Sample.openssl Sample.imports 48 PyNone w
  = @set_tlsext_host_name Sample.openssl (Sample.ascii_bytes "example.org") w.
Proof.
  reflexivity.
Qed.

(** A locator of another scheme whose path names the file that is
    there: the conversion gives that path and the file is read; the
    handler has no check of the scheme of its own. *)
Lemma non_file_locator_is_read :
  let locator := "http://example.org/path/to/existing.txt" in
  Sample.has_file_scheme locator = false
  /\ @download_request Sample.file_imports {| url := locator |} Sample.spider Sample.disk
     = (succeed {| response_class := "TextResponse" : @ResponseClass Sample.file_imports;
                   response_url := locator;
                   response_body := Sample.ascii_bytes "hello" |},
        Sample.disk).
Proof.
  split; reflexivity.
Qed.

End Runs.

(* ===================================================================== *)
(** * More on the handshake callback                                      *)
(* ===================================================================== *)

Section CallbackInDepth.
Context `{Ssl : Tls.OpenSSL} `{Imp : @Tls.Imports Ssl}.
Import Tls.

Lemma no_verify_call_among_records (records : list LogRecord) :
  filter is_verify_call (map Logged records) = [].
Proof.
  induction records as [|r records IH]; simpl; auto.
Qed.

Lemma no_server_name_call_among_records (records : list LogRecord) :
  filter is_server_name_call (map Logged records) = [].
Proof.
  induction records as [|r records IH]; simpl; auto.
Qed.

Lemma debug_part_is_debug (w : World) :
  Forall (logged_at DEBUG)
    (if verbose_logging (self w)
     then map Logged
            (fst (verbose_block (_hostnameASCII (super (self w))) (connection w)))
     else []).
Proof.
  destruct (verbose_logging (self w)); [|constructor].
  apply Forall_map.
  eapply Forall_impl; [|apply verbose_block_logs_debug].
  intros r Hr. exists r. auto.
Qed.

Lemma verbose_block_formats (hostname : string) (c : Connection) :
  Forall (fun r => exists text, getMessage r = Some text)
    (fst (verbose_block hostname c)).
Proof.
  block_cases; simpl; repeat constructor; eexists; reflexivity.
Qed.

(** One call, summed up: what it appends to the journal. *)
Lemma callback_summary (where_ : Z) (ret_ : PyVal) (w : World) :
  exists events,
    journal (snd (_identityVerifyingInfoCallback where_ ret_ w)) = journal w ++ events
    /\ (List.length (filter is_verify_call events)
        <= (if is_done_event where_ then 1 else 0))%nat
    /\ (verbose_logging (self w) = false ->
        List.length (filter is_verify_call events)
        = (if is_done_event where_ then 1 else 0)%nat)
    /\ List.length (filter is_server_name_call events)
       = (if is_start_event where_ then 1 else 0)%nat
    /\ (List.length (records_at WARNING events)
        <= (if is_done_event where_ then 1 else 0))%nat
    /\ (verbose_logging (self w) = false -> records_at DEBUG events = []).
Proof.
  unfold is_done_event, is_start_event.
  destruct (truthy_int (Z.land where_ SSL_CB_HANDSHAKE_START)) eqn:Hs.
  - rewrite callback_eq, Hs, set_tlsext_host_name_eq.
    exists [Called_set_tlsext_host_name (_hostnameBytes (super (self w)))].
    destruct (tlsext_host_name_error _ _); simpl; repeat split; auto.
  - destruct (truthy_int (Z.land where_ SSL_CB_HANDSHAKE_DONE)) eqn:Hd.
    + rewrite (callback_done_eq where_ ret_ w (handshake_done_of_truthy _ Hs Hd)).
      cbv zeta.
      destruct (verbose_logging (self w)).
      * destruct (snd (verbose_block _ _)) as [[]|e0];
          [destruct (verifyHostname _ _) as [[]|e];
           [|destruct (isinstance_any e [CertificateError; VerificationError]);
             [|destruct (isinstance_any e [ValueError])]]|];
          (eexists; split; [reflexivity|]);
          rewrite ?filter_app, ?records_at_app, ?length_app,
            ?no_verify_call_among_records, ?no_server_name_call_among_records,
            ?(records_at_logged _ _ (verbose_block_logs_debug _ _));
          simpl; repeat split; auto; discriminate.
      * destruct (verifyHostname _ _) as [[]|e];
          [|destruct (isinstance_any e [CertificateError; VerificationError]);
            [|destruct (isinstance_any e [ValueError])]];
          (eexists; split; [reflexivity|]);
          simpl; repeat split; auto.
    + rewrite callback_eq, Hs, Hd. exists []. simpl.
      rewrite app_nil_r. repeat split; auto.
Qed.

(** X1. An event with neither the start bit nor the done bit does
    nothing: the callback returns and the world, journal included, is
    as it was. *)
Theorem other_events_are_ignored (where_ : Z) (ret_ : PyVal) (w : World) :
  Z.land where_ SSL_CB_HANDSHAKE_START = 0%Z ->
  Z.land where_ SSL_CB_HANDSHAKE_DONE = 0%Z ->
  _identityVerifyingInfoCallback where_ ret_ w = (Return tt, w).
Proof.
  intros Hs Hd. rewrite callback_eq. unfold truthy_int. now rewrite Hs, Hd.
Qed.

(** X2. On a handshake-done event, when the verification is reached
    and [verifyHostname] returns, the callback returns and logs no
    warning; with verbose logging off the one event of the call is the
    verification itself, so nothing at all is logged. *)
Theorem accepted_certificate_is_silent (where_ : Z) (ret_ : PyVal) (w : World) :
  handshake_done where_ ->
  verification_is_reached w ->
  verifyHostname (connection w) (_hostnameASCII (super (self w))) = Return tt ->
  exists events,
    _identityVerifyingInfoCallback where_ ret_ w = (Return tt, after_events events w)
    /\ records_at WARNING events = []
    /\ (verbose_logging (self w) = false ->
        events = [Called_verifyHostname (_hostnameASCII (super (self w)))]).
Proof.
  intros Hdone Hreached Hok.
  rewrite (callback_done_eq where_ ret_ w Hdone). cbv zeta.
  rewrite (reached_block_returns w Hreached), Hok.
  eexists. split; [reflexivity|]. split.
  - rewrite records_at_app, records_at_debug_part, andb_false_r. reflexivity.
  - intros ->. reflexivity.
Qed.

(** X3. On a handshake-done event the callback raises [e] in exactly
    two cases: the flag is on and a call of the verbose block raised
    [e], which the callback does not catch; or the verification is
    reached, [verifyHostname] raised [e], and [e] is an instance of
    none of [CertificateError], [VerificationError] and [ValueError].
    Nothing else escapes, and nothing the callback raises is of its own
    making. *)
Theorem what_escapes_the_callback
    (where_ : Z) (ret_ : PyVal) (w : World) (e : PyException) :
  handshake_done where_ ->
  fst (_identityVerifyingInfoCallback where_ ret_ w) = Raise e
  <-> (verbose_logging (self w) = true
       /\ fst (log_connection_parameters w) = Raise e)
      \/ (verification_is_reached w
          /\ verifyHostname (connection w) (_hostnameASCII (super (self w))) = Raise e
          /\ isinstance e CertificateError = false
          /\ isinstance e VerificationError = false
          /\ isinstance e ValueError = false).
Proof.
  intros Hdone.
  rewrite (callback_done_eq where_ ret_ w Hdone). cbv zeta.
  unfold verification_is_reached.
  rewrite log_connection_parameters_eq. cbv zeta. cbn [fst].
  set (H := _hostnameASCII (super (self w))).
  set (inner := match verifyHostname (connection w) H with
                | Return _ => _
                | Raise _ => _
                end).
  assert (Hinner :
            fst inner = Raise e
            <-> verifyHostname (connection w) H = Raise e
                /\ isinstance e CertificateError = false
                /\ isinstance e VerificationError = false
                /\ isinstance e ValueError = false).
  { unfold inner. destruct (verifyHostname _ _) as [[]|e'].
    - cbn [fst]. split; [discriminate | intros [Habs _]; discriminate].
    - unfold isinstance_any, existsb. rewrite !orb_false_r.
      destruct (isinstance e' CertificateError) eqn:Hc;
        destruct (isinstance e' VerificationError) eqn:Hv;
        destruct (isinstance e' ValueError) eqn:Hval; cbn [orb fst];
        (split;
         [ intros Heq; try discriminate; injection Heq as <-; auto
         | intros (Heq & Hc' & Hv' & Hval'); injection Heq as <-; congruence ]). }
  clearbody inner.
  destruct (verbose_logging (self w));
    [destruct (snd (verbose_block H (connection w))) as [[]|e0]|].
  - cbv beta iota. rewrite Hinner. split.
    + intros Hverify. right. split; auto.
    + intros [[_ Habs] | [_ Hverify]]; [discriminate | exact Hverify].
  - cbn [fst]. split.
    + intros Heq. left. auto.
    + intros [[_ Heq] | [Habs _]]; [exact Heq|].
      specialize (Habs eq_refl). discriminate.
  - cbv beta iota. rewrite Hinner. split.
    + intros Hverify. right. split; [discriminate | exact Hverify].
    + intros [[Habs _] | [_ Hverify]]; [discriminate | exact Hverify].
Qed.

(** X4. On a handshake-done event the events of the call come in this
    order: first the debug records; then either nothing more, when the
    flag is on and a call of the verbose block raised (the callback
    raises that exception), or one call of [verifyHostname] with the
    stored ASCII hostname followed by at most one warning record.  No
    debug record follows the verification and no warning precedes
    it. *)
Theorem events_of_a_done_event_in_order (where_ : Z) (ret_ : PyVal) (w : World) :
  handshake_done where_ ->
  exists outcome before rest,
    _identityVerifyingInfoCallback where_ ret_ w
    = (outcome, after_events (before ++ rest) w)
    /\ Forall (logged_at DEBUG) before
    /\ ((rest = []
         /\ verbose_logging (self w) = true
         /\ exists e, fst (log_connection_parameters w) = Raise e
                      /\ outcome = Raise e)
        \/ (verification_is_reached w
            /\ exists after,
                 rest = Called_verifyHostname (_hostnameASCII (super (self w))) :: after
                 /\ Forall (logged_at WARNING) after
                 /\ (List.length after <= 1)%nat)).
Proof.
  intros Hdone.
  rewrite (callback_done_eq where_ ret_ w Hdone). cbv zeta.
  pose proof (debug_part_is_debug w) as Hdebug.
  unfold verification_is_reached.
  rewrite log_connection_parameters_eq. cbv zeta. cbn [fst].
  destruct (if verbose_logging (self w) then snd (verbose_block _ _) else Return tt)
    as [[]|e0] eqn:Hblock.
  - assert (Hreached : verbose_logging (self w) = true ->
                       snd (verbose_block (_hostnameASCII (super (self w)))
                              (connection w)) = Return tt).
    { intros Hflag. rewrite Hflag in Hblock. exact Hblock. }
    destruct (verifyHostname _ _) as [[]|e];
      [|destruct (isinstance_any e [CertificateError; VerificationError]);
        [|destruct (isinstance_any e [ValueError])]];
      do 3 eexists; (split; [reflexivity|]);
      (split; [exact Hdebug|]);
      right; (split; [exact Hreached|]);
      eexists; (split; [reflexivity|]);
      (split; [repeat constructor; eexists; split; reflexivity | simpl; lia]).
  - exists (Raise e0). do 2 eexists. split; [|split; [exact Hdebug|]].
    + rewrite app_nil_r. reflexivity.
    + left. destruct (verbose_logging (self w)); [|discriminate].
      repeat split. exists e0. auto.
Qed.

(** X5. Every record the callback logs can be formatted: its format
    string has as many conversions as the record has arguments, and
    [%r] is only ever applied to an exception.  So no call, whatever the
    event and the outcome of the verification, leaves a record whose
    message cannot be built. *)
Theorem every_logged_record_formats (where_ : Z) (ret_ : PyVal) (w : World) :
  exists events,
    journal (snd (_identityVerifyingInfoCallback where_ ret_ w)) = journal w ++ events
    /\ forall r, In (Logged r) events -> exists text, getMessage r = Some text.
Proof.
  assert (Hverbose : forall r,
             In (Logged r)
               (if verbose_logging (self w)
                then map Logged
                       (fst (verbose_block (_hostnameASCII (super (self w)))
                               (connection w)))
                else []) ->
             exists text, getMessage r = Some text).
  { intros r Hin. destruct (verbose_logging (self w)); [|contradiction].
    apply in_map_iff in Hin. destruct Hin as (r' & Heq & Hin).
    injection Heq as ->.
    pose proof (verbose_block_formats (_hostnameASCII (super (self w)))
                  (connection w)) as Hall.
    rewrite Forall_forall in Hall. now apply Hall. }
  destruct (truthy_int (Z.land where_ SSL_CB_HANDSHAKE_START)) eqn:Hs.
  - rewrite callback_eq, Hs, set_tlsext_host_name_eq.
    exists [Called_set_tlsext_host_name (_hostnameBytes (super (self w)))].
    split.
    + destruct (tlsext_host_name_error _ _); reflexivity.
    + intros r [Habs | []]. discriminate.
  - destruct (truthy_int (Z.land where_ SSL_CB_HANDSHAKE_DONE)) eqn:Hd.
    + rewrite (callback_done_eq where_ ret_ w (handshake_done_of_truthy _ Hs Hd)).
      cbv zeta.
      destruct (if verbose_logging (self w) then snd (verbose_block _ _) else Return tt)
        as [[]|e0].
      * destruct (verifyHostname _ _) as [[]|e];
          [|destruct (isinstance_any e [CertificateError; VerificationError]);
            [|destruct (isinstance_any e [ValueError])]];
          (eexists; split; [reflexivity|]);
          intros r Hin; apply in_app_or in Hin;
          (destruct Hin as [Hin | Hin]; [now apply Hverbose|]);
          simpl in Hin; decompose [or] Hin; try contradiction; try discriminate;
          match goal with Heq : Logged _ = Logged r |- _ => injection Heq as <- end;
          eexists; first [apply getMessage_not_valid | apply getMessage_ignoring].
      * eexists. split; [reflexivity|]. exact Hverbose.
    + rewrite callback_eq, Hs, Hd. exists []. split.
      * simpl. now rewrite app_nil_r.
      * intros r [].
Qed.

(** X6. Over any sequence of calls on one context,
    [set_tlsext_host_name] is called once for each start event and
    never otherwise, and [verifyHostname] at most once for each done
    event and never otherwise, whatever the calls return or raise; with
    verbose logging off, where no verbose block can raise before it,
    [verifyHostname] is called exactly once for each done event. *)
Theorem one_call_per_event
    (calls : list (Connection * Z * PyVal)) (w : World) :
  let final := journal (run_callbacks calls w) in
  List.length (filter is_server_name_call final)
  = (List.length (filter is_server_name_call (journal w)) + start_events calls)%nat
  /\ (List.length (filter is_verify_call final)
      <= List.length (filter is_verify_call (journal w)) + done_events calls)%nat
  /\ (verbose_logging (self w) = false ->
      List.length (filter is_verify_call final)
      = (List.length (filter is_verify_call (journal w)) + done_events calls)%nat).
Proof.
  cbv zeta. revert w.
  induction calls as [|[[c where_] ret_] rest IH]; intros w.
  - unfold done_events, start_events. simpl. repeat split; lia.
  - simpl run_callbacks.
    destruct (IH (snd (_identityVerifyingInfoCallback where_ ret_ (set_connection c w))))
      as (IHname & IHverify & IHquiet).
    destruct (callback_summary where_ ret_ (set_connection c w))
      as (events & Hj & Hverify & Hquiet & Hname & _).
    rewrite callback_keeps_self in IHquiet.
    rewrite Hj in IHname, IHverify, IHquiet. simpl journal in *. simpl self in *.
    rewrite !filter_app, !length_app in IHname, IHverify, IHquiet.
    unfold done_events, start_events in *. simpl filter.
    split; [|split].
    + rewrite IHname, Hname.
      destruct (is_done_event where_); destruct (is_start_event where_); simpl; lia.
    + destruct (is_done_event where_); destruct (is_start_event where_);
        simpl in *; lia.
    + intros Hflag. specialize (IHquiet Hflag). specialize (Hquiet Hflag).
      destruct (is_done_event where_); destruct (is_start_event where_);
        simpl in *; lia.
Qed.

(** X7. A context whose verbose-logging flag is off never logs a debug
    record: over any sequence of calls, whatever the events and the
    connections, the debug records of the journal stay the ones that
    were there. *)
Theorem quiet_context_stays_quiet
    (calls : list (Connection * Z * PyVal)) (w : World) :
  verbose_logging (self w) = false ->
  records_at DEBUG (journal (run_callbacks calls w)) = records_at DEBUG (journal w).
Proof.
  revert w.
  induction calls as [|[[c where_] ret_] rest IH]; intros w Hquiet; [reflexivity|].
  simpl run_callbacks.
  destruct (callback_summary where_ ret_ (set_connection c w))
    as (events & Hj & _ & _ & _ & _ & Hdebug).
  rewrite IH.
  - rewrite Hj, records_at_app, (Hdebug Hquiet), app_nil_r. reflexivity.
  - rewrite callback_keeps_self. exact Hquiet.
Qed.

(** X8. Over any sequence of calls, at most one warning is logged per
    done event and none for any other event. *)
Theorem at_most_one_warning_per_done_event
    (calls : list (Connection * Z * PyVal)) (w : World) :
  (List.length (records_at WARNING (journal (run_callbacks calls w)))
   <= List.length (records_at WARNING (journal w)) + done_events calls)%nat.
Proof.
  revert w.
  induction calls as [|[[c where_] ret_] rest IH]; intros w.
  - simpl. lia.
  - simpl run_callbacks.
    destruct (callback_summary where_ ret_ (set_connection c w))
      as (events & Hj & _ & _ & _ & Hwarn & _).
    specialize (IH (snd (_identityVerifyingInfoCallback where_ ret_ (set_connection c w)))).
    rewrite Hj, records_at_app, length_app in IH. simpl journal in IH.
    unfold done_events in *. simpl filter.
    destruct (is_done_event where_); simpl in *; lia.
Qed.

(** X9. The callback changes the connection in one case only: a start
    event whose server name the engine accepts, and then only the
    server name.  A done event, any other event, and a start event the
    engine refuses leave the connection as it was. *)
Theorem connection_changes_only_by_server_name
    (where_ : Z) (ret_ : PyVal) (w : World) :
  let run := _identityVerifyingInfoCallback where_ ret_ w in
  connection (snd run) = connection w
  \/ (is_start_event where_ = true
      /\ fst run = Return tt
      /\ connection (snd run)
         = with_servername (connection w) (_hostnameBytes (super (self w)))).
Proof.
  cbv zeta. unfold is_start_event.
  destruct (truthy_int (Z.land where_ SSL_CB_HANDSHAKE_START)) eqn:Hs.
  - rewrite callback_eq, Hs, set_tlsext_host_name_eq.
    destruct (tlsext_host_name_error _ _); [left | right]; auto.
  - left. destruct (truthy_int (Z.land where_ SSL_CB_HANDSHAKE_DONE)) eqn:Hd.
    + rewrite (callback_done_eq where_ ret_ w (handshake_done_of_truthy _ Hs Hd)).
      cbv zeta.
      destruct (if verbose_logging (self w) then snd (verbose_block _ _) else Return tt)
        as [[]|e0]; [|reflexivity].
      destruct (verifyHostname _ _) as [[]|e];
        [|destruct (isinstance_any e [CertificateError; VerificationError]);
          [|destruct (isinstance_any e [ValueError])]];
        reflexivity.
    + rewrite callback_eq, Hs, Hd. reflexivity.
Qed.

End CallbackInDepth.

(* ===================================================================== *)
(** * More on the file download handler and the method table              *)
(* ===================================================================== *)

Section FileDownloadInDepth.
Context `{Imp : FileHandler.Imports}.
Import FileHandler.

(** X10. A response is never made up: when [download_request] gives a
    deferred that has fired with a response, the locator converted to
    some path, the file at that path was read, the body of the response
    is exactly what was read, its url is the locator of the request and
    its class is what [from_args] picks for that path and body; and the
    file system is as it was. *)
Theorem a_response_comes_from_the_file
    (request : Request) (spider : Spider) (fs fs' : FileSystem)
    (response : Response) :
  download_request request spider fs = (succeed response, fs') ->
  fs' = fs
  /\ exists filepath,
       file_uri_to_path (url request) = Return filepath
       /\ fs filepath = Return (response_body response)
       /\ response_url response = url request
       /\ response_class response
          = responsetypes_from_args filepath (response_body response).
Proof.
  rewrite download_request_eq.
  destruct (file_uri_to_path (url request)) as [filepath|e]; [|discriminate].
  destruct (fs filepath) as [body|e] eqn:Hread; [|discriminate].
  intros Heq. injection Heq as <- <-. split; [reflexivity|].
  exists filepath. simpl. auto.
Qed.

(** X11. A failure is never made up either: when [download_request]
    gives a deferred that has failed with [e], then [e] is the
    exception the conversion of the locator raised, or the conversion
    gave a path and [e] is the exception reading that path raised. *)
Theorem a_failure_comes_from_a_collaborator
    (request : Request) (spider : Spider) (fs fs' : FileSystem)
    (e : PyException) :
  download_request request spider fs = (fail e, fs') ->
  fs' = fs
  /\ (file_uri_to_path (url request) = Raise e
      \/ exists filepath,
           file_uri_to_path (url request) = Return filepath
           /\ fs filepath = Raise e).
Proof.
  rewrite download_request_eq.
  destruct (file_uri_to_path (url request)) as [filepath|e0].
  - destruct (fs filepath) as [body|e0] eqn:Hread; [discriminate|].
    intros Heq. injection Heq as <- <-. split; [reflexivity|].
    right. exists filepath. auto.
  - intros Heq. injection Heq as <- <-. auto.
Qed.

End FileDownloadInDepth.

Section MethodTable.
Context `{Methods : Tls.SSL_methods}.
Import Tls.

(** X12. [openssl_methods] has four items, one for each of the four
    method names, none of them overwritten by a later one: a name has
    an entry exactly when it is "TLS", "TLSv1.0", "TLSv1.1" or
    "TLSv1.2", and the entry is the method written beside it; any other
    name, "TLSv1.3" for one, has none. *)
Theorem openssl_methods_entries (method : string) :
  List.length openssl_methods = 4%nat
  /\ dict_get METHOD_TLS openssl_methods = Some SSLv23_METHOD
  /\ dict_get METHOD_TLSv10 openssl_methods = Some TLSv1_METHOD
  /\ dict_get METHOD_TLSv11 openssl_methods = Some TLSv1_1_METHOD
  /\ dict_get METHOD_TLSv12 openssl_methods = Some TLSv1_2_METHOD
  /\ (dict_get method openssl_methods <> None
      <-> In method [METHOD_TLS; METHOD_TLSv10; METHOD_TLSv11; METHOD_TLSv12])
  /\ dict_get "TLSv1.3" openssl_methods = None.
Proof.
  repeat (split; [reflexivity|]).
  split; [|reflexivity].
  change openssl_methods
    with [ (METHOD_TLS, SSLv23_METHOD); (METHOD_TLSv10, TLSv1_METHOD);
           (METHOD_TLSv11, TLSv1_1_METHOD); (METHOD_TLSv12, TLSv1_2_METHOD) ].
  cbn [dict_get In].
  destruct (String.eqb_spec method METHOD_TLS) as [->|H0];
    [split; [auto | discriminate]|].
  destruct (String.eqb_spec method METHOD_TLSv10) as [->|H1];
    [split; [auto | discriminate]|].
  destruct (String.eqb_spec method METHOD_TLSv11) as [->|H2];
    [split; [auto | discriminate]|].
  destruct (String.eqb_spec method METHOD_TLSv12) as [->|H3];
    [split; [auto | discriminate]|].
  split; [congruence|].
  intros [Heq|[Heq|[Heq|[Heq|[]]]]]; congruence.
Qed.

End MethodTable.

(* ===================================================================== *)
(** * These theorems at work on the sample instance                       *)
(* ===================================================================== *)

Section MoreRuns.
Import Tls FileHandler.

(** An event with only the loop bit ([0x01]) set. *)
Lemma other_events_are_ignored_witness :
  let w := Sample.world true (Sample.connection_to "other.example") in
  @_identityVerifyingInfoCallback Sample.openssl Sample.imports 1 PyNone w
  = (Return tt, w).
Proof.
  apply (@other_events_are_ignored Sample.openssl Sample.imports 1 PyNone
           (Sample.world true (Sample.connection_to "other.example"))).
  - reflexivity.
  - reflexivity.
Defined.

(** The certificate is for the host asked for, verbose logging off. *)
Lemma accepted_certificate_is_silent_witness :
  let w := Sample.world false (Sample.connection_to "example.org") in
  exists events,
    @_identityVerifyingInfoCallback Sample.openssl Sample.imports 32 PyNone w
    = (Return tt, after_events events w)
    /\ records_at WARNING events = []
    /\ (verbose_logging (self w) = false ->
        events = [Called_verifyHostname "example.org"]).
Proof.
  apply (@accepted_certificate_is_silent Sample.openssl Sample.imports 32 PyNone
           (Sample.world false (Sample.connection_to "example.org"))).
  - exact sample_done_event.
  - intros Hverbose. discriminate Hverbose.
  - reflexivity.
Defined.

(** An engine whose temp key helper raises, verbose logging on: the
    helper's exception is what escapes. *)
Lemma what_escapes_the_callback_witness :
  fst (@_identityVerifyingInfoCallback Sample.openssl Sample.imports 32 PyNone
         (Sample.world true (Sample.connection_without_key_function "example.org")))
  = Raise Sample.missing_function.
Proof.
  apply (proj2 (@what_escapes_the_callback Sample.openssl Sample.imports 32 PyNone
                  (Sample.world true
                     (Sample.connection_without_key_function "example.org"))
                  Sample.missing_function sample_done_event)).
  left. split; reflexivity.
Defined.

(** Verbose logging and a certificate for another host: three debug
    records, the verification, one warning. *)
Lemma events_of_a_done_event_in_order_witness :
  let w := Sample.world true (Sample.connection_to "other.example") in
  exists outcome before rest,
    @_identityVerifyingInfoCallback Sample.openssl Sample.imports 32 PyNone w
    = (outcome, after_events (before ++ rest) w)
    /\ Forall (logged_at DEBUG) before
    /\ ((rest = []
         /\ verbose_logging (self w) = true
         /\ exists e, fst (@log_connection_parameters Sample.openssl Sample.imports w)
                      = Raise e
                      /\ outcome = Raise e)
        \/ (@verification_is_reached Sample.openssl Sample.imports w
            /\ exists after,
                 rest = Called_verifyHostname "example.org" :: after
                 /\ Forall (logged_at WARNING) after
                 /\ (List.length after <= 1)%nat)).
Proof.
  apply (@events_of_a_done_event_in_order Sample.openssl Sample.imports 32 PyNone
           (Sample.world true (Sample.connection_to "other.example"))).
  exact sample_done_event.
Defined.

(** A done event and a start event on a context built without verbose
    logging. *)
Lemma quiet_context_stays_quiet_witness :
  let calls := [(Sample.connection_to "other.example", 32%Z, PyNone);
                (Sample.anonymous_connection, 16%Z, PyNone)] in
  let w := Sample.world false Sample.anonymous_connection in
  records_at DEBUG (journal (@run_callbacks Sample.openssl Sample.imports calls w))
  = records_at DEBUG (journal w).
Proof.
  apply (@quiet_context_stays_quiet Sample.openssl Sample.imports
           [(Sample.connection_to "other.example", 32%Z, PyNone);
            (Sample.anonymous_connection, 16%Z, PyNone)]
           (Sample.world false Sample.anonymous_connection)).
  reflexivity.
Defined.

(** The response of the file that is there, traced back to the file. *)
Lemma a_response_comes_from_the_file_witness :
  let response :=
    {| response_class := "TextResponse" : @ResponseClass Sample.file_imports;
       response_url := "file:///path/to/existing.txt";
       response_body := Sample.ascii_bytes "hello" |} in
  Sample.disk = Sample.disk
  /\ exists filepath,
       @file_uri_to_path Sample.file_imports "file:///path/to/existing.txt"
       = Return filepath
       /\ Sample.disk filepath = Return (response_body response)
       /\ response_url response = "file:///path/to/existing.txt"
       /\ response_class response
          = @responsetypes_from_args Sample.file_imports filepath
              (response_body response).
Proof.
  apply (@a_response_comes_from_the_file Sample.file_imports
           {| url := "file:///path/to/existing.txt" |} Sample.spider
           Sample.disk Sample.disk).
  reflexivity.
Defined.

(** The failure for the file that is not there, traced back to the
    read. *)
Lemma a_failure_comes_from_a_collaborator_witness :
  Sample.disk = Sample.disk
  /\ (@file_uri_to_path Sample.file_imports "file:///path/to/missing.bin"
      = Raise Sample.file_not_found
      \/ exists filepath,
           @file_uri_to_path Sample.file_imports "file:///path/to/missing.bin"
           = Return filepath
           /\ Sample.disk filepath = Raise Sample.file_not_found).
Proof.
  apply (@a_failure_comes_from_a_collaborator Sample.file_imports
           {| url := "file:///path/to/missing.bin" |} Sample.spider
           Sample.disk Sample.disk Sample.file_not_found).
  reflexivity.
Defined.

End MoreRuns.
